(** * Vehicles and electronics: a shallow embedding of the two demo scripts

    [polymorphism.py] (the transport domain) and [smartphone.py] (the device
    domain) are modelled as Rocq functions.  Python integers are [Z], Python
    strings are [string] (the UTF-8 bytes of the text), lists are [list].

    A method body mutates [self] and writes to the console; both are
    threaded explicitly by the small state monad [method] below.  What the
    scripts take from the runtime (the random draws, the clock, the
    [str.lower] builtin, the formatting of a float) enters as an argument.
    [time.sleep] only delays the narration and has no counterpart here. *)

From Stdlib Require Import ZArith String Ascii List Bool Lia DecimalString QArith.
Import ListNotations.

#[local] Open Scope string_scope.
#[local] Open Scope Z_scope.

(** ** The runtime: methods as state transformers *)

(** Where [print] writes.  The transport script only has a console, the device
    script also has the class variable [Electronics.total_devices]. *)
Class Console (G : Type) := { echo : string -> G -> G }.

(** The console of a script that has no other process-wide state: the lines
    printed so far, oldest first. *)
Definition Stdout : Type := list string.

#[global] Instance Console_Stdout : Console Stdout :=
  {| echo := fun line out => (out ++ [line])%list |}.

(** A method of an object of type [T] in a process whose global state is [G]:
    from [self] and the globals to the returned value, the mutated [self] and
    the new globals. *)
Definition method (G T A : Type) : Type := T -> G -> A * T * G.

Definition result {G T A} (r : A * T * G) : A := fst (fst r).
Definition self_after {G T A} (r : A * T * G) : T := snd (fst r).
Definition globals_after {G T A} (r : A * T * G) : G := snd r.

Definition ret {G T A} (a : A) : method G T A :=
  fun self g => (a, self, g).

Definition bind {G T A B} (m : method G T A) (k : A -> method G T B) : method G T B :=
  fun self g =>
    let r := m self g in
    k (result r) (self_after r) (globals_after r).

(** Reading [self]. *)
Definition this {G T} : method G T T :=
  fun self g => (self, self, g).

(** An attribute assignment [self.x = v], given as the update of [self]. *)
Definition assign {G T} (f : T -> T) : method G T unit :=
  fun self g => (tt, f self, g).

(** [print(line)]. *)
Definition print {G T} `{Console G} (line : string) : method G T unit :=
  fun self g => (tt, self, echo line g).

Declare Scope method_scope.
Delimit Scope method_scope with method.
Notation "x <- m ;; k" := (bind m (fun x => k))
  (at level 61, m at next level, right associativity) : method_scope.
Notation "m ;; k" := (bind m (fun _ => k))
  (at level 61, right associativity) : method_scope.
#[local] Open Scope method_scope.

(** [str(n)] for an integer [n], as an f-string formats it. *)
Definition str (n : Z) : string := NilZero.string_of_int (Z.to_int n).

(** [random.choice(seq)], the draw's index being [r]. *)
Definition choice (r : nat) (seq : list string) : string :=
  nth (r mod length seq) seq "".

(** ** The transport domain: [polymorphism.py] *)

Module Transport.

Module Vehicle.

(** The attributes [Vehicle.__init__] creates, and in [extra] those the
    subclass adds. *)
Record t (X : Type) : Type := mk {
  name : string;
  max_speed : Z;
  fuel_type : string;
  capacity : Z;
  current_speed : Z;
  is_moving : bool;
  fuel_level : Z;
  distance_traveled : Z;
  extra : X
}.
Arguments mk {X}.
Arguments name {X}.
Arguments max_speed {X}.
Arguments fuel_type {X}.
Arguments capacity {X}.
Arguments current_speed {X}.
Arguments is_moving {X}.
Arguments fuel_level {X}.
Arguments distance_traveled {X}.
Arguments extra {X}.

Definition set_current_speed {X} (s : Z) (v : t X) : t X :=
  mk (name v) (max_speed v) (fuel_type v) (capacity v) s (is_moving v)
     (fuel_level v) (distance_traveled v) (extra v).

Definition set_is_moving {X} (b : bool) (v : t X) : t X :=
  mk (name v) (max_speed v) (fuel_type v) (capacity v) (current_speed v) b
     (fuel_level v) (distance_traveled v) (extra v).

Definition set_extra {X} (x : X) (v : t X) : t X :=
  mk (name v) (max_speed v) (fuel_type v) (capacity v) (current_speed v)
     (is_moving v) (fuel_level v) (distance_traveled v) x.

(** [Vehicle.__init__(self, name, max_speed, fuel_type, capacity)]; the
    subclass constructor then fills [extra]. *)
Definition __init__ {X} (name : string) (max_speed : Z) (fuel_type : string)
    (capacity : Z) (x : X) : t X :=
  mk name max_speed fuel_type capacity 0 false 100 0 x.

(** [Vehicle.accelerate(self, speed_increase)], inherited by every
    subclass. *)
Definition accelerate {X} (speed_increase : Z) : method Stdout (t X) unit :=
  self <- this ;;
  if is_moving self then
    let old_speed := current_speed self in
    assign (set_current_speed
              (Z.min (max_speed self) (current_speed self + speed_increase))) ;;
    self <- this ;;
    print ("⚡ " ++ name self ++ " accelerated: " ++ str old_speed ++ " → "
           ++ str (current_speed self) ++ " km/h")
  else
    print ("❌ " ++ name self ++ " is not moving. Call move() first!").

End Vehicle.

Import Vehicle.

Module Car.

Record fields : Type := { gear : Z; doors : Z }.
Definition t : Type := Vehicle.t fields.

(** [Car(name, max_speed=180, capacity=5)]. *)
Definition __init__ (name : string) (max_speed capacity : Z) : t :=
  Vehicle.__init__ name max_speed "Gasoline" capacity {| gear := 1; doors := 4 |}.

Definition make_sound (r : nat) : method Stdout t unit :=
  let sounds := ["Vroom vroom! 🏎️"; "Beep beep! 📯"; "Engine purring... 🚗"] in
  print ("🔊 " ++ choice r sounds).

Definition move (r : nat) : method Stdout t unit :=
  self <- this ;;
  if negb (is_moving self) then
    assign (set_is_moving true) ;;
    assign (set_current_speed 30) ;;
    self <- this ;;
    print ("🚗 " ++ name self ++ " is driving on the road at "
           ++ str (current_speed self) ++ " km/h") ;;
    make_sound r
  else
    print ("🚗 " ++ name self ++ " is already driving!").

Definition stop : method Stdout t unit :=
  self <- this ;;
  if is_moving self then
    print ("🛑 " ++ name self ++ " is braking and coming to a stop...") ;;
    assign (set_current_speed 0) ;;
    assign (set_is_moving false) ;;
    print ("🚗 " ++ name self ++ " has stopped and parked.")
  else
    print ("🚗 " ++ name self ++ " is already stopped!").

Definition set_gear (g : Z) (v : t) : t :=
  set_extra {| gear := g; doors := doors (extra v) |} v.

Definition shift_gear (gear : Z) : method Stdout t unit :=
  self <- this ;;
  if (1 <=? gear) && (gear <=? 6) && is_moving self then
    assign (set_gear gear) ;;
    print ("⚙️ " ++ name self ++ " shifted to gear " ++ str gear)
  else
    print ("❌ Cannot shift to gear " ++ str gear).

End Car.

Module Plane.

Record fields : Type := { altitude : Z; is_airborne : bool }.
Definition t : Type := Vehicle.t fields.

Definition set_altitude (a : Z) (v : t) : t :=
  set_extra {| altitude := a; is_airborne := is_airborne (extra v) |} v.

Definition set_is_airborne (b : bool) (v : t) : t :=
  set_extra {| altitude := altitude (extra v); is_airborne := b |} v.

(** [Plane(name, max_speed=900, capacity=200)]. *)
Definition __init__ (name : string) (max_speed capacity : Z) : t :=
  Vehicle.__init__ name max_speed "Jet Fuel" capacity
    {| altitude := 0; is_airborne := false |}.

Definition make_sound (r : nat) : method Stdout t unit :=
  let sounds := ["WHOOOOSH! 🌪️"; "Jet engines roaring! ✈️";
                 "Turbulence rumbling... 🌩️"] in
  print ("🔊 " ++ choice r sounds).

Definition move (r : nat) : method Stdout t unit :=
  self <- this ;;
  if negb (is_moving self) then
    print ("✈️ " ++ name self ++ " is taxiing to the runway...") ;;
    print ("✈️ " ++ name self ++ " is taking off...") ;;
    assign (set_is_moving true) ;;
    assign (set_is_airborne true) ;;
    assign (set_current_speed 250) ;;
    assign (set_altitude 1000) ;;
    self <- this ;;
    print ("✈️ " ++ name self ++ " is flying at " ++ str (current_speed self)
           ++ " km/h, altitude " ++ str (altitude (extra self)) ++ "m") ;;
    make_sound r
  else
    print ("✈️ " ++ name self ++ " is already flying!").

Definition stop : method Stdout t unit :=
  self <- this ;;
  if is_moving self then
    print ("🛬 " ++ name self ++ " is beginning descent...") ;;
    assign (set_altitude 0) ;;
    print ("🛬 " ++ name self ++ " is landing on runway...") ;;
    assign (set_current_speed 0) ;;
    assign (set_is_moving false) ;;
    assign (set_is_airborne false) ;;
    print ("✈️ " ++ name self ++ " has landed and is at the gate.")
  else
    print ("✈️ " ++ name self ++ " is already on the ground!").

Definition climb_altitude (target_altitude : Z) : method Stdout t unit :=
  self <- this ;;
  if is_airborne (extra self) then
    assign (set_altitude target_altitude) ;;
    print ("📈 " ++ name self ++ " climbed to " ++ str target_altitude ++ "m altitude")
  else
    print ("❌ " ++ name self ++ " must be airborne to change altitude!").

End Plane.

Module Boat.

Record fields : Type := { anchor_down : bool }.
Definition t : Type := Vehicle.t fields.

Definition set_anchor_down (b : bool) (v : t) : t :=
  set_extra {| anchor_down := b |} v.

(** [Boat(name, max_speed=60, capacity=50)]. *)
Definition __init__ (name : string) (max_speed capacity : Z) : t :=
  Vehicle.__init__ name max_speed "Diesel" capacity {| anchor_down := true |}.

Definition make_sound (r : nat) : method Stdout t unit :=
  let sounds := ["Splash splash! 🌊"; "Foghorn: HOOOONK! 📯"; "Waves lapping... 🌊"] in
  print ("🔊 " ++ choice r sounds).

Definition move (r : nat) : method Stdout t unit :=
  self <- this ;;
  if negb (is_moving self) then
    (if anchor_down (extra self) then
       print ("⚓ Raising anchor for " ++ name self ++ "...") ;;
       assign (set_anchor_down false)
     else ret tt) ;;
    print ("🚤 " ++ name self ++ " is sailing across the water...") ;;
    assign (set_is_moving true) ;;
    assign (set_current_speed 25) ;;
    self <- this ;;
    print ("⛵ " ++ name self ++ " is cruising at " ++ str (current_speed self)
           ++ " km/h") ;;
    make_sound r
  else
    print ("⛵ " ++ name self ++ " is already sailing!").

Definition stop : method Stdout t unit :=
  self <- this ;;
  if is_moving self then
    print ("🛑 " ++ name self ++ " is slowing down...") ;;
    assign (set_current_speed 0) ;;
    assign (set_is_moving false) ;;
    print ("⚓ Dropping anchor for " ++ name self ++ "...") ;;
    assign (set_anchor_down true) ;;
    print ("⛵ " ++ name self ++ " is anchored at port.")
  else
    print ("⛵ " ++ name self ++ " is already anchored!").

Definition drop_anchor : method Stdout t unit :=
  self <- this ;;
  if negb (anchor_down (extra self)) && negb (is_moving self) then
    assign (set_anchor_down true) ;;
    print ("⚓ Anchor dropped for " ++ name self)
  else
    print "⚓ Anchor is already down or boat is moving!".

End Boat.

Module Bicycle.

Record fields : Type := { pedaling : bool; gear : Z }.
Definition t : Type := Vehicle.t fields.

Definition set_pedaling (b : bool) (v : t) : t :=
  set_extra {| pedaling := b; gear := gear (extra v) |} v.

(** [Bicycle(name, max_speed=40, capacity=2)]. *)
Definition __init__ (name : string) (max_speed capacity : Z) : t :=
  Vehicle.__init__ name max_speed "Human Power" capacity
    {| pedaling := false; gear := 1 |}.

Definition make_sound (r : nat) : method Stdout t unit :=
  let sounds := ["Ring ring! 🔔"; "Whoosh of wind! 💨"; "Chain clicking... ⚙️"] in
  print ("🔊 " ++ choice r sounds).

Definition move (r : nat) : method Stdout t unit :=
  self <- this ;;
  if negb (is_moving self) then
    print ("🚴 Starting to pedal " ++ name self ++ "...") ;;
    assign (set_is_moving true) ;;
    assign (set_pedaling true) ;;
    assign (set_current_speed 15) ;;
    self <- this ;;
    print ("🚴 " ++ name self ++ " is cycling at " ++ str (current_speed self)
           ++ " km/h") ;;
    make_sound r
  else
    print ("🚴 " ++ name self ++ " is already cycling!").

Definition stop : method Stdout t unit :=
  self <- this ;;
  if is_moving self then
    print ("🛑 Applying brakes to " ++ name self ++ "...") ;;
    assign (set_current_speed 0) ;;
    assign (set_is_moving false) ;;
    assign (set_pedaling false) ;;
    print ("🚴 " ++ name self ++ " has stopped.")
  else
    print ("🚴 " ++ name self ++ " is already stopped!").

Definition ring_bell : method Stdout t unit :=
  self <- this ;;
  print ("🔔 Ring ring! " ++ name self ++ " is signaling!").

End Bicycle.

Module Train.

Record fields : Type := { cars : Z; station : string }.
Definition t : Type := Vehicle.t fields.

(** [Train(name, max_speed=300, capacity=500)]. *)
Definition __init__ (name : string) (max_speed capacity : Z) : t :=
  Vehicle.__init__ name max_speed "Electric" capacity
    {| cars := 8; station := "Central Station" |}.

Definition make_sound (r : nat) : method Stdout t unit :=
  let sounds := ["Choo choo! 🚂"; "TOOT TOOT! 📯"; "Clackety-clack on tracks... 🛤️"] in
  print ("🔊 " ++ choice r sounds).

Definition move (r : nat) : method Stdout t unit :=
  self <- this ;;
  if negb (is_moving self) then
    print ("🚂 All aboard! " ++ name self ++ " is departing from "
           ++ station (extra self) ++ "...") ;;
    print ("🚂 " ++ name self ++ " is accelerating on the tracks...") ;;
    assign (set_is_moving true) ;;
    assign (set_current_speed 80) ;;
    self <- this ;;
    print ("🚃 " ++ name self ++ " is traveling at " ++ str (current_speed self)
           ++ " km/h on the railway") ;;
    make_sound r
  else
    print ("🚃 " ++ name self ++ " is already traveling!").

Definition stop : method Stdout t unit :=
  self <- this ;;
  if is_moving self then
    print ("🛑 " ++ name self ++ " is approaching the next station...") ;;
    print ("🚂 Brakes engaging for " ++ name self ++ "...") ;;
    assign (set_current_speed 0) ;;
    assign (set_is_moving false) ;;
    print ("🚃 " ++ name self ++ " has arrived at the station. Doors opening...")
  else
    print ("🚃 " ++ name self ++ " is already at the station!").

Definition set_station (s : string) (v : t) : t :=
  set_extra {| cars := cars (extra v); station := s |} v.

(** There is no [else]: on a moving train the call does and prints nothing. *)
Definition change_station (new_station : string) : method Stdout t unit :=
  self <- this ;;
  if negb (is_moving self) then
    assign (set_station new_station) ;;
    print ("🚉 " ++ name self ++ " is now at " ++ new_station)
  else
    ret tt.

End Train.

(** An object of one of the five concrete classes, as the driver's list of
    vehicles holds them. *)
Inductive vehicle : Type :=
  | ACar (c : Car.t)
  | APlane (p : Plane.t)
  | ABoat (b : Boat.t)
  | ABicycle (b : Bicycle.t)
  | ATrain (t : Train.t).

(** The class of an object, and the call of its constructor. *)
Inductive variant : Type := Car | Plane | Boat | Bicycle | Train.

Definition class_of (v : vehicle) : variant :=
  match v with
  | ACar _ => Car
  | APlane _ => Plane
  | ABoat _ => Boat
  | ABicycle _ => Bicycle
  | ATrain _ => Train
  end.

Definition new (k : variant) (name : string) (max_speed capacity : Z) : vehicle :=
  match k with
  | Car => ACar (Car.__init__ name max_speed capacity)
  | Plane => APlane (Plane.__init__ name max_speed capacity)
  | Boat => ABoat (Boat.__init__ name max_speed capacity)
  | Bicycle => ABicycle (Bicycle.__init__ name max_speed capacity)
  | Train => ATrain (Train.__init__ name max_speed capacity)
  end.

(** An attribute every vehicle has, read off an object of any class. *)
Definition attr {A : Type} (f : forall X, Vehicle.t X -> A) (v : vehicle) : A :=
  match v with
  | ACar c => f _ c
  | APlane p => f _ p
  | ABoat b => f _ b
  | ABicycle b => f _ b
  | ATrain t => f _ t
  end.

Definition speed : vehicle -> Z := attr (@current_speed).
Definition limit : vehicle -> Z := attr (@max_speed).
Definition moving : vehicle -> bool := attr (@is_moving).

(** A method call on an object of a concrete class, seen as a call on a
    [vehicle]. *)
Definition dispatch {T A : Type} (inj : T -> vehicle) (m : method Stdout T A)
    (self : T) (out : Stdout) : A * vehicle * Stdout :=
  let r := m self out in
  (result r, inj (self_after r), globals_after r).

(** [v.move()], [v.stop()] and [v.accelerate(d)] by the class of [v]. *)
Definition move (r : nat) : method Stdout vehicle unit :=
  fun v =>
    match v with
    | ACar c => dispatch ACar (Car.move r) c
    | APlane p => dispatch APlane (Plane.move r) p
    | ABoat b => dispatch ABoat (Boat.move r) b
    | ABicycle b => dispatch ABicycle (Bicycle.move r) b
    | ATrain t => dispatch ATrain (Train.move r) t
    end.

Definition stop : method Stdout vehicle unit :=
  fun v =>
    match v with
    | ACar c => dispatch ACar Car.stop c
    | APlane p => dispatch APlane Plane.stop p
    | ABoat b => dispatch ABoat Boat.stop b
    | ABicycle b => dispatch ABicycle Bicycle.stop b
    | ATrain t => dispatch ATrain Train.stop t
    end.

Definition accelerate (speed_increase : Z) : method Stdout vehicle unit :=
  fun v =>
    match v with
    | ACar c => dispatch ACar (Vehicle.accelerate speed_increase) c
    | APlane p => dispatch APlane (Vehicle.accelerate speed_increase) p
    | ABoat b => dispatch ABoat (Vehicle.accelerate speed_increase) b
    | ABicycle b => dispatch ABicycle (Vehicle.accelerate speed_increase) b
    | ATrain t => dispatch ATrain (Vehicle.accelerate speed_increase) t
    end.

(** The starting speed the specification documents for each class; that
    [move] sets it is [move_starts_and_stop_halts] below. *)
Definition starting_speed (k : variant) : Z :=
  match k with
  | Car => 30
  | Plane => 250
  | Boat => 25
  | Bicycle => 15
  | Train => 80
  end.

(** The data model's invariant: the speed is at most the maximum, and zero
    when the vehicle is not moving. *)
Definition speed_invariant (v : vehicle) : Prop :=
  speed v <= limit v /\ (moving v = false -> speed v = 0).

(** The three calls the state machine is made of. *)
Inductive call : Type :=
  | Move (r : nat)
  | Stop
  | Accelerate (speed_increase : Z).

Definition invoke (c : call) : method Stdout vehicle unit :=
  match c with
  | Move r => move r
  | Stop => stop
  | Accelerate d => accelerate d
  end.

(** A script of calls on one vehicle, first call first. *)
Fixpoint run (cs : list call) (v : vehicle) (out : Stdout) : vehicle * Stdout :=
  match cs with
  | [] => (v, out)
  | c :: cs' =>
      let r := invoke c v out in
      run cs' (self_after r) (globals_after r)
  end.

(** *** Every method of the five classes *)

(** A call of any method a vehicle class defines or inherits. *)
Inductive method_call : Type :=
  | Common (c : call)
  | ShiftGear (gear : Z)
  | ClimbAltitude (target_altitude : Z)
  | DropAnchor
  | RingBell
  | ChangeStation (new_station : string).

(** The call on an object: [None] when the object's class has no such method
    (Python raises [AttributeError]). *)
Definition invoke_any (c : method_call) (v : vehicle) (out : Stdout)
    : option (unit * vehicle * Stdout) :=
  match c, v with
  | Common c, _ => Some (invoke c v out)
  | ShiftGear gear, ACar c => Some (dispatch ACar (Car.shift_gear gear) c out)
  | ClimbAltitude target, APlane p => Some (dispatch APlane (Plane.climb_altitude target) p out)
  | DropAnchor, ABoat b => Some (dispatch ABoat Boat.drop_anchor b out)
  | RingBell, ABicycle b => Some (dispatch ABicycle Bicycle.ring_bell b out)
  | ChangeStation s, ATrain t => Some (dispatch ATrain (Train.change_station s) t out)
  | _, _ => None
  end.

(** A script of such calls, first call first; it stops at the first call the
    object does not have. *)
Fixpoint run_any (cs : list method_call) (v : vehicle) (out : Stdout)
    : option (vehicle * Stdout) :=
  match cs with
  | [] => Some (v, out)
  | c :: cs' =>
      match invoke_any c v out with
      | Some r => run_any cs' (self_after r) (globals_after r)
      | None => None
      end
  end.

(** The attributes only a subclass has, read off a [vehicle]; [None] for an
    object of another class. *)
Definition car_gear (v : vehicle) : option Z :=
  match v with ACar c => Some (Car.gear (extra c)) | _ => None end.

Definition plane_state (v : vehicle) : option (Z * bool) :=
  match v with
  | APlane p => Some (Plane.altitude (extra p), Plane.is_airborne (extra p))
  | _ => None
  end.

Definition boat_anchor_down (v : vehicle) : option bool :=
  match v with ABoat b => Some (Boat.anchor_down (extra b)) | _ => None end.

Definition bicycle_pedaling (v : vehicle) : option bool :=
  match v with ABicycle b => Some (Bicycle.pedaling (extra b)) | _ => None end.

Definition train_station (v : vehicle) : option string :=
  match v with ATrain t => Some (Train.station (extra t)) | _ => None end.

(** The attributes [Vehicle.__init__] sets and no method is meant to touch:
    name, maximum speed, fuel type, capacity, fuel level and distance. *)
Definition fixed_attributes (v : vehicle) : string * Z * string * Z * Z * Z :=
  (attr (@name) v, attr (@max_speed) v, attr (@fuel_type) v, attr (@capacity) v,
   attr (@fuel_level) v, attr (@distance_traveled) v).

(** What holds of the attributes of each class in every state a script
    reaches: the gear of a car is one of the six, a plane is airborne exactly
    when it moves and on the ground at altitude 0, a boat's anchor is down
    exactly when it does not move, a bicycle is pedalled exactly when it
    moves; and a vehicle that does not move has speed 0. *)
Definition consistent (v : vehicle) : Prop :=
  (moving v = false -> speed v = 0) /\
  match v with
  | ACar c => 1 <= Car.gear (extra c) <= 6
  | APlane p =>
      Plane.is_airborne (extra p) = is_moving p /\
      (is_moving p = false -> Plane.altitude (extra p) = 0)
  | ABoat b => Boat.anchor_down (extra b) = negb (is_moving b)
  | ABicycle b => Bicycle.pedaling (extra b) = is_moving b
  | ATrain _ => True
  end.

(** A script that never asks for a negative speed increase. *)
Definition accelerates_forward (c : method_call) : Prop :=
  match c with
  | Common (Accelerate d) => 0 <= d
  | _ => True
  end.

End Transport.

(** ** The device domain: [smartphone.py] *)

Module Devices.

(** What the script takes from the Python runtime without defining it:
    [str.lower], and the text an f-string gives a float (the price). *)
Class Runtime : Type := {
  lower : string -> string;
  repr_float : Q -> string
}.

(** The process-wide state: the class variable [Electronics.total_devices] and
    the console. *)
Record World : Type := {
  total_devices : Z;
  stdout : Stdout
}.

#[global] Instance Console_World : Console World :=
  {| echo := fun line w =>
       {| total_devices := total_devices w; stdout := echo line (stdout w) |} |}.

(** A value of a snapshot dict, and the dict itself with its keys in insertion
    order. *)
Inductive value : Type :=
  | Str (s : string)
  | Int (n : Z)
  | Float (q : Q)
  | Boolean (b : bool).

Definition dict : Type := list (string * value).

(** [d[k] = v]. *)
Fixpoint setitem (k : string) (v : value) (d : dict) : dict :=
  match d with
  | [] => [(k, v)]
  | (k', v') :: d' =>
      if String.eqb k' k then (k, v) :: d' else (k', v') :: setitem k v d'
  end.

(** [{**a, **b}]. *)
Definition merge (a b : dict) : dict :=
  fold_left (fun d kv => setitem (fst kv) (snd kv) d) b a.

(** [x in xs] for a list of strings. *)
Definition contains (x : string) (xs : list string) : bool :=
  existsb (String.eqb x) xs.

(** [xs.remove(x)] when [x in xs]: the first occurrence goes. *)
Fixpoint remove (x : string) (xs : list string) : list string :=
  match xs with
  | [] => []
  | y :: ys => if String.eqb y x then ys else y :: remove x ys
  end.

(** [len(xs)]. *)
Definition len {A : Type} (xs : list A) : Z := Z.of_nat (length xs).

Module Electronics.

(** The attributes [Electronics.__init__] creates, and in [extra] those the
    subclass adds. *)
Record t (X : Type) : Type := mk {
  brand : string;
  model : string;
  price : Q;
  warranty_years : Z;
  _serial_number : string;
  _manufacture_date : string;
  __is_on : bool;
  __power_consumption : Z;
  extra : X
}.
Arguments mk {X}.
Arguments brand {X}.
Arguments model {X}.
Arguments price {X}.
Arguments warranty_years {X}.
Arguments _serial_number {X}.
Arguments _manufacture_date {X}.
Arguments __is_on {X}.
Arguments __power_consumption {X}.
Arguments extra {X}.

Definition set___is_on {X} (b : bool) (d : t X) : t X :=
  mk (brand d) (model d) (price d) (warranty_years d) (_serial_number d)
     (_manufacture_date d) b (__power_consumption d) (extra d).

Definition set___power_consumption {X} (p : Z) (d : t X) : t X :=
  mk (brand d) (model d) (price d) (warranty_years d) (_serial_number d)
     (_manufacture_date d) (__is_on d) p (extra d).

Definition set_extra {X} (x : X) (d : t X) : t X :=
  mk (brand d) (model d) (price d) (warranty_years d) (_serial_number d)
     (_manufacture_date d) (__is_on d) (__power_consumption d) x.

(** What a class of the hierarchy fixes: its name and the overridable hook
    [_get_base_power_consumption]. *)
Class Klass (X : Type) : Type := {
  __name__ : string;
  _get_base_power_consumption : t X -> Z
}.

(** [Electronics._generate_serial], [draw] being
    [random.randint(100000, 999999)]. *)
Definition _generate_serial (draw : Z) : string := "SN" ++ str draw.

(** [Electronics.__init__(self, brand, model, price, warranty_years=1)].
    [draw] is the serial number's random draw, [today] is
    [datetime.now().strftime("%Y-%m-%d")], and [x] holds the attributes the
    subclass constructor sets after this one returns. *)
Definition __init__ {X} `{Klass X} (brand model : string) (price : Q)
    (warranty_years : Z) (draw : Z) (today : string) (x : X)
    (w : World) : t X * World :=
  let self := mk brand model price warranty_years (_generate_serial draw) today
                 false 0 x in
  let w := {| total_devices := total_devices w + 1; stdout := stdout w |} in
  (self, echo ("📱 New " ++ __name__ ++ " created: " ++ brand ++ " " ++ model) w).

Definition power_on {X} `{Klass X} : method World (t X) unit :=
  self <- this ;;
  if negb (__is_on self) then
    assign (set___is_on true) ;;
    self <- this ;;
    assign (set___power_consumption (_get_base_power_consumption self)) ;;
    print ("🔋 " ++ brand self ++ " " ++ model self ++ " is now ON")
  else
    print ("⚠️ " ++ brand self ++ " " ++ model self ++ " is already ON").

Definition power_off {X} : method World (t X) unit :=
  self <- this ;;
  if __is_on self then
    assign (set___is_on false) ;;
    assign (set___power_consumption 0) ;;
    print ("⚫ " ++ brand self ++ " " ++ model self ++ " is now OFF")
  else
    print ("⚠️ " ++ brand self ++ " " ++ model self ++ " is already OFF").

Definition get_device_info {X} (self : t X) : dict :=
  let status := if __is_on self then "ON" else "OFF" in
  [ ("brand", Str (brand self));
    ("model", Str (model self));
    ("price", Float (price self));
    ("serial_number", Str (_serial_number self));
    ("manufacture_date", Str (_manufacture_date self));
    ("warranty_years", Int (warranty_years self));
    ("status", Str status);
    ("power_consumption", Int (__power_consumption self)) ].

Definition is_under_warranty {X} (self : t X) : bool := true.

Definition __str__ {X} (self : t X) : string :=
  brand self ++ " " ++ model self ++ " (SN: " ++ _serial_number self ++ ")".

Definition __repr__ {X} `{Runtime} (self : t X) : string :=
  "Electronics('" ++ brand self ++ "', '" ++ model self ++ "', "
  ++ repr_float (price self) ++ ")".

(** The base class itself: no attribute of its own, and the hook as
    [Electronics] defines it. *)
#[global] Instance Klass_Electronics : Klass unit :=
  {| __name__ := "Electronics"; _get_base_power_consumption := fun _ => 50 |}.

End Electronics.

Import Electronics.

Module Smartphone.

(** An entry of the contact list: the dict [{"name": ..., "phone": ...}]. *)
Record contact : Type := { name : string; phone : string }.

Record fields : Type := mk_fields {
  os : string;
  storage_gb : Z;
  camera_mp : Z;
  battery_mah : Z;
  __contacts : list contact;
  __apps_installed : list string;
  __battery_level : Z;
  __screen_locked : bool
}.

Definition t : Type := Electronics.t fields.

Definition set___contacts (cs : list contact) (p : t) : t :=
  let x := extra p in
  set_extra (mk_fields (os x) (storage_gb x) (camera_mp x) (battery_mah x) cs
               (__apps_installed x) (__battery_level x) (__screen_locked x)) p.

Definition set___apps_installed (apps : list string) (p : t) : t :=
  let x := extra p in
  set_extra (mk_fields (os x) (storage_gb x) (camera_mp x) (battery_mah x)
               (__contacts x) apps (__battery_level x) (__screen_locked x)) p.

Definition set___battery_level (level : Z) (p : t) : t :=
  let x := extra p in
  set_extra (mk_fields (os x) (storage_gb x) (camera_mp x) (battery_mah x)
               (__contacts x) (__apps_installed x) level (__screen_locked x)) p.

Definition set___screen_locked (b : bool) (p : t) : t :=
  let x := extra p in
  set_extra (mk_fields (os x) (storage_gb x) (camera_mp x) (battery_mah x)
               (__contacts x) (__apps_installed x) (__battery_level x) b) p.

(** The private attributes, read off the object. *)
Definition contacts (p : t) : list contact := __contacts (extra p).
Definition apps_installed (p : t) : list string := __apps_installed (extra p).
Definition battery_level (p : t) : Z := __battery_level (extra p).
Definition screen_locked (p : t) : bool := __screen_locked (extra p).

(** The override of the hook. *)
#[global] Instance Klass_Smartphone : Klass fields :=
  {| __name__ := "Smartphone"; _get_base_power_consumption := fun _ => 15 |}.

(** [Smartphone.__init__(self, brand, model, price, os, storage_gb, camera_mp,
    battery_mah, warranty_years=2)], with the two runtime inputs of the parent
    constructor. *)
Definition __init__ (brand model : string) (price : Q) (os : string)
    (storage_gb camera_mp battery_mah warranty_years : Z)
    (draw : Z) (today : string) (w : World) : t * World :=
  let r := Electronics.__init__ brand model price warranty_years draw today
             (mk_fields os storage_gb camera_mp battery_mah
                [] ["Phone"; "Messages"; "Settings"] 100 true) w in
  (fst r,
   echo ("📱 Smartphone initialized with " ++ str storage_gb ++ "GB storage and "
         ++ str camera_mp ++ "MP camera") (snd r)).

(** [passcode] defaults to ["1234"]. *)
Definition unlock_screen (passcode : string) : method World t bool :=
  self <- this ;;
  if screen_locked self then
    if String.eqb passcode "1234" then
      assign (set___screen_locked false) ;;
      print "🔓 Screen unlocked successfully!" ;;
      ret true
    else
      print "❌ Incorrect passcode!" ;;
      ret false
  else
    print "ℹ️ Screen is already unlocked" ;;
    ret true.

Definition lock_screen : method World t unit :=
  self <- this ;;
  if negb (screen_locked self) then
    assign (set___screen_locked true) ;;
    print "🔒 Screen locked"
  else
    print "ℹ️ Screen is already locked".

Definition add_contact (name phone_number : string) : method World t bool :=
  self <- this ;;
  if negb (screen_locked self) then
    let contact := {| name := name; phone := phone_number |} in
    assign (set___contacts (contacts self ++ [contact])%list) ;;
    print ("👤 Contact added: " ++ name ++ " - " ++ phone_number) ;;
    ret true
  else
    print "🔒 Please unlock screen first!" ;;
    ret false.

Definition install_app (app_name : string) : method World t bool :=
  self <- this ;;
  if negb (screen_locked self) then
    if negb (contains app_name (apps_installed self)) then
      if len (apps_installed self) <? storage_gb (extra self) / 4 then
        assign (set___apps_installed (apps_installed self ++ [app_name])%list) ;;
        self <- this ;;
        assign (set___battery_level (battery_level self - 2)) ;;
        print ("📲 App installed: " ++ app_name) ;;
        ret true
      else
        print "💾 Not enough storage space!" ;;
        ret false
    else
      print ("ℹ️ " ++ app_name ++ " is already installed") ;;
      ret false
  else
    print "🔒 Please unlock screen first!" ;;
    ret false.

(** [now] is [datetime.now().strftime('%Y%m%d_%H%M%S')]; the result is the
    file name, or [None]. *)
Definition take_photo (now : string) : method World t (option string) :=
  self <- this ;;
  if negb (screen_locked self) then
    if battery_level self >? 5 then
      assign (set___battery_level (battery_level self - 3)) ;;
      let photo_quality := if camera_mp (extra self) >=? 12 then "HD" else "Standard" in
      print ("📸 Photo taken! Quality: " ++ photo_quality ++ " ("
             ++ str (camera_mp (extra self)) ++ "MP)") ;;
      ret (Some (photo_quality ++ "_photo_" ++ now ++ ".jpg"))
    else
      print "🔋 Battery too low to take photo!" ;;
      ret None
  else
    print "🔒 Please unlock screen first!" ;;
    ret None.

Definition make_call `{Runtime} (contact_name : string) : method World t bool :=
  self <- this ;;
  if negb (screen_locked self) then
    let contact :=
      find (fun c => String.eqb (lower (name c)) (lower contact_name))
           (contacts self) in
    match contact with
    | Some contact =>
        if battery_level self >? 10 then
          assign (set___battery_level (battery_level self - 5)) ;;
          print ("📞 Calling " ++ name contact ++ " at " ++ phone contact ++ "...") ;;
          ret true
        else
          print "🔋 Battery too low to make call!" ;;
          ret false
    | None =>
        print ("❌ Contact '" ++ contact_name ++ "' not found!") ;;
        ret false
    end
  else
    print "🔒 Please unlock screen first!" ;;
    ret false.

Definition check_battery : method World t Z :=
  self <- this ;;
  let battery_status := if battery_level self >? 20 then "🔋" else "🪫" in
  print (battery_status ++ " Battery Level: " ++ str (battery_level self) ++ "%") ;;
  ret (battery_level self).

(** [amount] defaults to 50. *)
Definition charge_battery (amount : Z) : method World t unit :=
  self <- this ;;
  let old_level := battery_level self in
  assign (set___battery_level (Z.min 100 (battery_level self + amount))) ;;
  self <- this ;;
  let gained := battery_level self - old_level in
  print ("🔌 Charged! Battery: " ++ str old_level ++ "% → "
         ++ str (battery_level self) ++ "% (+" ++ str gained ++ "%)").

Definition get_contacts : method World t (list contact) :=
  self <- this ;;
  if negb (screen_locked self) then
    ret (contacts self)
  else
    print "🔒 Please unlock screen first!" ;;
    ret [].

Definition get_installed_apps : method World t (list string) :=
  self <- this ;;
  if negb (screen_locked self) then
    ret (apps_installed self)
  else
    print "🔒 Please unlock screen first!" ;;
    ret [].

Definition get_smartphone_info (self : t) : dict :=
  let base_info := get_device_info self in
  let smartphone_info :=
    [ ("os", Str (os (extra self)));
      ("storage_gb", Int (storage_gb (extra self)));
      ("camera_mp", Int (camera_mp (extra self)));
      ("battery_mah", Int (battery_mah (extra self)));
      ("battery_level", Int (battery_level self));
      ("screen_locked", Boolean (screen_locked self));
      ("contacts_count", Int (len (contacts self)));
      ("apps_installed", Int (len (apps_installed self))) ] in
  merge base_info smartphone_info.

Definition __str__ (self : t) : string :=
  brand self ++ " " ++ model self ++ " (" ++ os (extra self) ++ ", "
  ++ str (storage_gb (extra self)) ++ "GB, " ++ str (camera_mp (extra self)) ++ "MP)".

End Smartphone.

Module Laptop.

Record fields : Type := mk_fields {
  os : string;
  ram_gb : Z;
  storage_gb : Z;
  screen_size : string;
  __programs_running : list string;
  __cpu_usage : Z
}.

Definition t : Type := Electronics.t fields.

Definition set___programs_running (ps : list string) (l : t) : t :=
  let x := extra l in
  set_extra (mk_fields (os x) (ram_gb x) (storage_gb x) (screen_size x) ps
               (__cpu_usage x)) l.

Definition set___cpu_usage (u : Z) (l : t) : t :=
  let x := extra l in
  set_extra (mk_fields (os x) (ram_gb x) (storage_gb x) (screen_size x)
               (__programs_running x) u) l.

Definition programs_running (l : t) : list string := __programs_running (extra l).
Definition cpu_usage (l : t) : Z := __cpu_usage (extra l).

(** The override of the hook. *)
#[global] Instance Klass_Laptop : Klass fields :=
  {| __name__ := "Laptop"; _get_base_power_consumption := fun _ => 65 |}.

(** [Laptop.__init__(self, brand, model, price, os, ram_gb, storage_gb,
    screen_size, warranty_years=3)], with the two runtime inputs of the parent
    constructor. *)
Definition __init__ (brand model : string) (price : Q) (os : string)
    (ram_gb storage_gb : Z) (screen_size : string) (warranty_years : Z)
    (draw : Z) (today : string) (w : World) : t * World :=
  Electronics.__init__ brand model price warranty_years draw today
    (mk_fields os ram_gb storage_gb screen_size [] 0) w.

(** [draw] is [random.randint(5, 15)]. *)
Definition run_program (draw : Z) (program_name : string) : method World t unit :=
  self <- this ;;
  if negb (contains program_name (programs_running self)) then
    assign (set___programs_running (programs_running self ++ [program_name])%list) ;;
    self <- this ;;
    assign (set___cpu_usage (cpu_usage self + draw)) ;;
    self <- this ;;
    print ("💻 Running: " ++ program_name ++ " (CPU: " ++ str (cpu_usage self) ++ "%)")
  else
    print ("ℹ️ " ++ program_name ++ " is already running").

(** [draw] is [random.randint(5, 15)]. *)
Definition close_program (draw : Z) (program_name : string) : method World t unit :=
  self <- this ;;
  if contains program_name (programs_running self) then
    assign (set___programs_running (remove program_name (programs_running self))) ;;
    self <- this ;;
    assign (set___cpu_usage (Z.max 0 (cpu_usage self - draw))) ;;
    self <- this ;;
    print ("❌ Closed: " ++ program_name ++ " (CPU: " ++ str (cpu_usage self) ++ "%)")
  else
    print ("ℹ️ " ++ program_name ++ " is not running").

Definition get_system_info (self : t) : dict :=
  let base_info := get_device_info self in
  let laptop_info :=
    [ ("os", Str (os (extra self)));
      ("ram_gb", Int (ram_gb (extra self)));
      ("storage_gb", Int (storage_gb (extra self)));
      ("screen_size", Str (screen_size (extra self)));
      ("cpu_usage", Int (cpu_usage self));
      ("running_programs", Int (len (programs_running self))) ] in
  merge base_info laptop_info.

End Laptop.

(** *** Calls, and scripts of calls *)

(** A method call discards its result here: what is left of it is the object
    and the process-wide state. *)
Definition effect {T A : Type} (m : method World T A) (self : T) (w : World) : T * World :=
  let r := m self w in (self_after r, globals_after r).

(** A method that reads the object and touches nothing. *)
Definition pure {T A : Type} (f : T -> A) : method World T A :=
  fun self w => (f self, self, w).

(** The methods every class of the hierarchy has. *)
Inductive base_call : Type :=
  | PowerOn
  | PowerOff
  | GetDeviceInfo
  | IsUnderWarranty
  | ToStr
  | ToRepr.

Definition invoke_base {X} `{Runtime} `{Klass X} (c : base_call)
    (self : Electronics.t X) (w : World) : Electronics.t X * World :=
  match c with
  | PowerOn => effect power_on self w
  | PowerOff => effect power_off self w
  | GetDeviceInfo => effect (pure get_device_info) self w
  | IsUnderWarranty => effect (pure is_under_warranty) self w
  | ToStr => effect (pure Electronics.__str__) self w
  | ToRepr => effect (pure __repr__) self w
  end.

(** The methods of a [Smartphone]: its own and the inherited ones ([__str__]
    is overridden). *)
Inductive phone_call : Type :=
  | Inherited (c : base_call)
  | UnlockScreen (passcode : string)
  | LockScreen
  | AddContact (name phone_number : string)
  | InstallApp (app_name : string)
  | TakePhoto (now : string)
  | MakeCall (contact_name : string)
  | CheckBattery
  | ChargeBattery (amount : Z)
  | GetContacts
  | GetInstalledApps
  | GetSmartphoneInfo.

Definition invoke_phone `{Runtime} (c : phone_call) (self : Smartphone.t) (w : World)
    : Smartphone.t * World :=
  match c with
  | Inherited ToStr => effect (pure Smartphone.__str__) self w
  | Inherited c => invoke_base c self w
  | UnlockScreen passcode => effect (Smartphone.unlock_screen passcode) self w
  | LockScreen => effect Smartphone.lock_screen self w
  | AddContact name phone_number => effect (Smartphone.add_contact name phone_number) self w
  | InstallApp app_name => effect (Smartphone.install_app app_name) self w
  | TakePhoto now => effect (Smartphone.take_photo now) self w
  | MakeCall contact_name => effect (Smartphone.make_call contact_name) self w
  | CheckBattery => effect Smartphone.check_battery self w
  | ChargeBattery amount => effect (Smartphone.charge_battery amount) self w
  | GetContacts => effect Smartphone.get_contacts self w
  | GetInstalledApps => effect Smartphone.get_installed_apps self w
  | GetSmartphoneInfo => effect (pure Smartphone.get_smartphone_info) self w
  end.

(** The methods of a [Laptop]. *)
Inductive laptop_call : Type :=
  | InheritedL (c : base_call)
  | RunProgram (draw : Z) (program_name : string)
  | CloseProgram (draw : Z) (program_name : string)
  | GetSystemInfo.

Definition invoke_laptop `{Runtime} (c : laptop_call) (self : Laptop.t) (w : World)
    : Laptop.t * World :=
  match c with
  | InheritedL c => invoke_base c self w
  | RunProgram draw program_name => effect (Laptop.run_program draw program_name) self w
  | CloseProgram draw program_name => effect (Laptop.close_program draw program_name) self w
  | GetSystemInfo => effect (pure Laptop.get_system_info) self w
  end.

(** A script of calls on one smartphone, first call first. *)
Fixpoint run_phone `{Runtime} (cs : list phone_call) (self : Smartphone.t) (w : World)
    : Smartphone.t * World :=
  match cs with
  | [] => (self, w)
  | c :: cs' =>
      let r := invoke_phone c self w in
      run_phone cs' (fst r) (snd r)
  end.

(** The calls the battery invariant is stated over. *)
Definition battery_call (c : phone_call) : bool :=
  match c with
  | UnlockScreen _ | LockScreen | AddContact _ _ | InstallApp _ | TakePhoto _
  | MakeCall _ | ChargeBattery _ | CheckBattery => true
  | _ => false
  end.

(** A smartphone some script of calls leaves behind, starting from a
    constructor call. *)
Definition reachable `{Runtime} (p : Smartphone.t) : Prop :=
  exists brand model price os storage_gb camera_mp battery_mah warranty_years
         draw today w cs,
    p = fst (run_phone cs
               (fst (Smartphone.__init__ brand model price os storage_gb camera_mp
                       battery_mah warranty_years draw today w))
               (snd (Smartphone.__init__ brand model price os storage_gb camera_mp
                       battery_mah warranty_years draw today w))).

(** [take_photo]'s result carries the quality label [q]: the file name starts
    with it. *)
Definition labeled (q : string) (photo : option string) : Prop :=
  match photo with
  | Some file => prefix q file = true /\ file <> ""
  | None => False
  end.

(** *** A runtime to evaluate the model with *)

Definition lower_ascii (c : ascii) : ascii :=
  let n := nat_of_ascii c in
  if ((65 <=? n) && (n <=? 90))%nat then ascii_of_nat (n + 32) else c.

Fixpoint lower_string (s : string) : string :=
  match s with
  | EmptyString => EmptyString
  | String c s' => String (lower_ascii c) (lower_string s')
  end.

(** [str.lower] on ASCII text, and a float shown as the fraction it is. *)
Definition ascii_runtime : Runtime :=
  {| lower := lower_string;
     repr_float := fun q => str (Qnum q) ++ "/" ++ str (Zpos (Qden q)) |}.

(** The phone of the demonstration driver, [n] distinct app names, and the
    driver's phone after it is unlocked. *)
Definition demo_phone (w : World) : Smartphone.t * World :=
  Smartphone.__init__ "TechPro" "X15 Pro" (89999 # 100) "Android 14" 256 48 4500 2
    123456 "2025-01-01" w.

Definition app_names (n : nat) : list string :=
  map (fun i => "App" ++ str (Z.of_nat i)) (seq 1 n).

(** A phone with little storage. *)
Definition small_phone (w : World) : Smartphone.t * World :=
  Smartphone.__init__ "TechPro" "Mini" (9999 # 100) "Android 14" 8 8 3000 2
    654321 "2025-01-01" w.

(** The process before the first constructor call. *)
Definition boot : World := {| total_devices := 0; stdout := [] |}.

(** A freshly constructed smartphone after [unlock_screen("1234")]. *)
Definition unlocked (fresh : Smartphone.t * World) : Smartphone.t * World :=
  effect (Smartphone.unlock_screen "1234") (fst fresh) (snd fresh).

(** The apps [Smartphone.__init__] installs. *)
Definition preinstalled : list string := ["Phone"; "Messages"; "Settings"].

(** *** Scripts on the other classes, and what a script contains *)

(** A script of calls on an object of the base class, first call first. *)
Fixpoint run_base {X} `{Runtime} `{Klass X} (cs : list base_call)
    (self : Electronics.t X) (w : World) : Electronics.t X * World :=
  match cs with
  | [] => (self, w)
  | c :: cs' =>
      let r := invoke_base c self w in
      run_base cs' (fst r) (snd r)
  end.

(** A script of calls on one laptop, first call first. *)
Fixpoint run_laptop `{Runtime} (cs : list laptop_call) (self : Laptop.t) (w : World)
    : Laptop.t * World :=
  match cs with
  | [] => (self, w)
  | c :: cs' =>
      let r := invoke_laptop c self w in
      run_laptop cs' (fst r) (snd r)
  end.

(** The object a script leaves behind, started on what a constructor call
    returned. *)
Definition phone_after `{Runtime} (cs : list phone_call) (fresh : Smartphone.t * World)
    : Smartphone.t :=
  fst (run_phone cs (fst fresh) (snd fresh)).

Definition laptop_after `{Runtime} (cs : list laptop_call) (fresh : Laptop.t * World)
    : Laptop.t :=
  fst (run_laptop cs (fst fresh) (snd fresh)).

(** [unlock_screen] with the passcode that unlocks. *)
Definition unlocks (c : phone_call) : bool :=
  match c with
  | UnlockScreen passcode => String.eqb passcode "1234"
  | _ => false
  end.

(** [charge_battery], with any amount. *)
Definition charges (c : phone_call) : bool :=
  match c with
  | ChargeBattery _ => true
  | _ => false
  end.

(** The draws of [run_program] and [close_program] are what
    [random.randint(5, 15)] can return. *)
Definition draw_in_range (c : laptop_call) : Prop :=
  match c with
  | RunProgram draw _ | CloseProgram draw _ => 5 <= draw <= 15
  | _ => True
  end.

(** The attributes of a smartphone no method assigns. *)
Definition phone_identity (p : Smartphone.t)
    : string * string * Q * Z * string * string * (string * Z * Z * Z) :=
  (brand p, model p, price p, warranty_years p, _serial_number p, _manufacture_date p,
   (Smartphone.os (extra p), Smartphone.storage_gb (extra p),
    Smartphone.camera_mp (extra p), Smartphone.battery_mah (extra p))).

(** The keys of a snapshot, in order. *)
Definition keys (d : dict) : list string := map fst d.

(** The driver's phone, unlocked, with one contact and 29 photos taken: the
    battery is down to 13. *)
Definition worn_phone : Smartphone.t :=
  @phone_after ascii_runtime
    (UnlockScreen "1234" :: AddContact "Alice Smith" "+254712345678"
       :: repeat (TakePhoto "20250101_120000") 29)
    (demo_phone boot).

End Devices.

(** * Properties of the transport domain *)

Module TransportFacts.

Import Transport.

(** Opens the object of whichever class [v] is, down to its attributes. *)
Ltac open_vehicle v :=
  destruct v as [[? ? ? ? ? ? ? ? ?] | [? ? ? ? ? ? ? ? ?] | [? ? ? ? ? ? ? ? ?]
                | [? ? ? ? ? ? ? ? ?] | [? ? ? ? ? ? ? ? ?]].

(** Runs the method bodies on opened objects, leaving the formatted text
    alone. *)
Ltac run_method :=
  cbv [move stop accelerate invoke dispatch speed limit moving attr class_of
       starting_speed speed_invariant
       Car.move Car.stop Car.make_sound Plane.move Plane.stop Plane.make_sound
       Boat.move Boat.stop Boat.make_sound Bicycle.move Bicycle.stop
       Bicycle.make_sound Train.move Train.stop Train.make_sound
       Plane.set_altitude Plane.set_is_airborne Boat.set_anchor_down
       Bicycle.set_pedaling Plane.altitude Plane.is_airborne Boat.anchor_down
       Bicycle.pedaling Bicycle.gear Train.station
       Vehicle.accelerate Vehicle.set_current_speed Vehicle.set_is_moving
       Vehicle.set_extra Vehicle.current_speed Vehicle.max_speed Vehicle.is_moving
       Vehicle.name Vehicle.extra Vehicle.fuel_type Vehicle.capacity
       Vehicle.fuel_level Vehicle.distance_traveled
       bind this assign print ret self_after result globals_after fst snd negb] in *.

(** Splits on the tests a method body branches on. *)
Ltac branch :=
  repeat match goal with
    | |- context [if ?b then _ else _] => destruct b
    end.

Lemma class_of_invoke (c : call) (v : vehicle) (out : Stdout) :
  class_of (self_after (invoke c v out)) = class_of v.
Proof.
  destruct c; open_vehicle v; reflexivity.
Qed.

Lemma limit_invoke (c : call) (v : vehicle) (out : Stdout) :
  limit (self_after (invoke c v out)) = limit v.
Proof.
  destruct c; open_vehicle v; run_method; branch; reflexivity.
Qed.

(** One call keeps the invariant of a vehicle whose maximum speed is at least
    the speed its class starts at. *)
Lemma speed_invariant_invoke (c : call) (v : vehicle) (out : Stdout) :
  starting_speed (class_of v) <= limit v ->
  speed_invariant v ->
  speed_invariant (self_after (invoke c v out)).
Proof.
  destruct c; open_vehicle v; run_method; intros Hmax [Hle Hstopped];
    match goal with b : bool |- _ => destruct b end;
    branch; split; intros; try (specialize (Hstopped eq_refl)); lia || discriminate.
Qed.

Lemma speed_invariant_run (cs : list call) :
  forall (v : vehicle) (out : Stdout),
    starting_speed (class_of v) <= limit v ->
    speed_invariant v ->
    speed_invariant (fst (run cs v out)).
Proof.
  induction cs as [| c cs IH]; intros v out Hmax Hinv.
  - exact Hinv.
  - cbn [run]. apply IH.
    + rewrite class_of_invoke, limit_invoke. exact Hmax.
    + apply speed_invariant_invoke; assumption.
Qed.

Lemma moving_after_move (v : vehicle) (r : nat) (out : Stdout) :
  moving (self_after (move r v out)) = true.
Proof.
  open_vehicle v; run_method;
    match goal with b : bool |- _ => destruct b end; branch; reflexivity.
Qed.

(** C2, as the code has it: a vehicle of any class whose constructor is given
    a maximum speed of at least the speed its class starts at (Car 30, Plane
    250, Boat 25, Bicycle 15, Train 80) satisfies the invariant
    [current_speed <= max_speed] and [current_speed = 0] when not moving, after
    construction (the empty script) and after every further call of [move],
    [stop] and [accelerate]. *)
Theorem speed_invariant_when_max_speed_covers_start
    (k : variant) (name : string) (max_speed capacity : Z)
    (cs : list call) (out : Stdout) :
  starting_speed k <= max_speed ->
  speed_invariant (fst (run cs (new k name max_speed capacity) out)).
Proof.
  intros Hmax. apply speed_invariant_run.
  - destruct k; exact Hmax.
  - destruct k; split; intros; cbn in *; try reflexivity;
      cbn in Hmax; lia.
Qed.

Lemma speed_invariant_when_max_speed_covers_start_witness :
  starting_speed Car <= 180 /\
  speed_invariant
    (fst (run [Move 0%nat; Accelerate 200; Stop; Stop; Move 2%nat]
            (new Car "Toyota Camry" 180 5) [])).
Proof.
  split.
  - cbn. lia.
  - apply speed_invariant_when_max_speed_covers_start. cbn. lia.
Defined.

(** C2, as the claim states it, fails: a car built with a maximum speed of 20
    satisfies the invariant, and one [move] later drives at 30. *)
Lemma slow_car_exceeds_max_speed :
  speed_invariant (new Car "Kart" 20 1) /\
  speed (self_after (move 0%nat (new Car "Kart" 20 1) [])) = 30 /\
  limit (self_after (move 0%nat (new Car "Kart" 20 1) [])) = 20 /\
  ~ speed_invariant (self_after (move 0%nat (new Car "Kart" 20 1) [])).
Proof.
  repeat split.
  - cbn. lia.
  - intros [Hle _]. cbn in Hle. lia.
Qed.

(** C5: [move] on a stopped vehicle of any class leaves it moving at the
    starting speed of its class (Car 30, Plane 250, Boat 25, Bicycle 15, Train
    80); [stop] on a moving vehicle leaves it stopped at speed 0. *)
Theorem move_starts_and_stop_halts (v : vehicle) (r : nat) (out : Stdout) :
  (moving v = false ->
     moving (self_after (move r v out)) = true /\
     speed (self_after (move r v out)) = starting_speed (class_of v)) /\
  (moving v = true ->
     moving (self_after (stop v out)) = false /\
     speed (self_after (stop v out)) = 0).
Proof.
  split; intros Hm; open_vehicle v; run_method; subst; branch; split; reflexivity.
Qed.

Lemma move_starts_and_stop_halts_witness :
  (moving (new Plane "Boeing 747" 900 200) = false /\
   moving (self_after (move 1%nat (new Plane "Boeing 747" 900 200) [])) = true /\
   speed (self_after (move 1%nat (new Plane "Boeing 747" 900 200) [])) = 250) /\
  (moving (self_after (move 1%nat (new Plane "Boeing 747" 900 200) [])) = true /\
   moving (self_after (stop (self_after (move 1%nat (new Plane "Boeing 747" 900 200) [])) []))
     = false /\
   speed (self_after (stop (self_after (move 1%nat (new Plane "Boeing 747" 900 200) [])) []))
     = 0).
Proof.
  split; (split; [reflexivity |]).
  - apply (proj1 (move_starts_and_stop_halts (new Plane "Boeing 747" 900 200) 1%nat [])).
    reflexivity.
  - apply (proj2 (move_starts_and_stop_halts
                    (self_after (move 1%nat (new Plane "Boeing 747" 900 200) [])) 0%nat [])).
    reflexivity.
Defined.

(** C6: [accelerate(d)] on a vehicle that is not moving changes nothing of the
    object; on a moving vehicle it sets [current_speed] to
    [min(max_speed, current_speed + d)] and leaves every other attribute as it
    was.  The method is [Vehicle]'s and no class overrides it, so [X] ranges
    over the attributes of any class. *)
Theorem accelerate_clamps_to_max_speed {X : Type} (v : Vehicle.t X) (d : Z) (out : Stdout) :
  (Vehicle.is_moving v = false -> self_after (Vehicle.accelerate d v out) = v) /\
  (Vehicle.is_moving v = true ->
     Vehicle.current_speed (self_after (Vehicle.accelerate d v out))
       = Z.min (Vehicle.max_speed v) (Vehicle.current_speed v + d) /\
     Vehicle.name (self_after (Vehicle.accelerate d v out)) = Vehicle.name v /\
     Vehicle.max_speed (self_after (Vehicle.accelerate d v out)) = Vehicle.max_speed v /\
     Vehicle.fuel_type (self_after (Vehicle.accelerate d v out)) = Vehicle.fuel_type v /\
     Vehicle.capacity (self_after (Vehicle.accelerate d v out)) = Vehicle.capacity v /\
     Vehicle.is_moving (self_after (Vehicle.accelerate d v out)) = Vehicle.is_moving v /\
     Vehicle.fuel_level (self_after (Vehicle.accelerate d v out)) = Vehicle.fuel_level v /\
     Vehicle.distance_traveled (self_after (Vehicle.accelerate d v out))
       = Vehicle.distance_traveled v /\
     Vehicle.extra (self_after (Vehicle.accelerate d v out)) = Vehicle.extra v).
Proof.
  destruct v as [n ms ft cap cs im fl dt x]; split; intros Hm; run_method; subst;
    repeat split.
Qed.

Lemma accelerate_clamps_to_max_speed_witness :
  Vehicle.current_speed
    (self_after (Vehicle.accelerate 200
                   (self_after (Car.move 0%nat (Car.__init__ "Toyota Camry" 200 5) [])) []))
    = 200 /\
  self_after (Vehicle.accelerate 50 (Car.__init__ "Toyota Camry" 200 5) [])
    = Car.__init__ "Toyota Camry" 200 5.
Proof.
  split.
  - exact (proj1 (proj2 (accelerate_clamps_to_max_speed
             (self_after (Car.move 0%nat (Car.__init__ "Toyota Camry" 200 5) []))
             200 []) eq_refl)).
  - exact (proj1 (accelerate_clamps_to_max_speed
             (Car.__init__ "Toyota Camry" 200 5) 50 []) eq_refl).
Defined.

(** C7: on a vehicle of any class that is already moving, [move] changes
    nothing of the object and prints one line; so does [stop] on one that is
    already stopped; and the second of two consecutive [move] calls leaves the
    object as the first one left it.  The calls return normally: the model's
    methods are total. *)
Theorem redundant_move_and_stop_change_nothing
    (v : vehicle) (r r' : nat) (out out' : Stdout) :
  (moving v = true ->
     self_after (move r v out) = v /\
     exists line, globals_after (move r v out) = (out ++ [line])%list) /\
  (moving v = false ->
     self_after (stop v out) = v /\
     exists line, globals_after (stop v out) = (out ++ [line])%list) /\
  self_after (move r' (self_after (move r v out)) out') = self_after (move r v out).
Proof.
  assert (Hmove : forall v r out, moving v = true ->
            self_after (move r v out) = v /\
            exists line, globals_after (move r v out) = (out ++ [line])%list).
  { clear. intros v r out Hm. open_vehicle v; run_method; subst;
      (split; [reflexivity | eexists; reflexivity]). }
  split; [apply Hmove | split].
  - intros Hm. open_vehicle v; run_method; subst;
      (split; [reflexivity | eexists; reflexivity]).
  - apply Hmove. apply moving_after_move.
Qed.

Lemma redundant_move_and_stop_change_nothing_witness :
  self_after (stop (new Car "Toyota Camry" 200 5) []) = new Car "Toyota Camry" 200 5 /\
  self_after (move 1%nat (self_after (move 0%nat (new Boat "Sea Explorer" 80 12) [])) [])
    = self_after (move 0%nat (new Boat "Sea Explorer" 80 12) []).
Proof.
  split.
  - exact (proj1 (proj1 (proj2 (redundant_move_and_stop_change_nothing
             (new Car "Toyota Camry" 200 5) 0%nat 0%nat [] [])) eq_refl)).
  - exact (proj1 (proj1 (redundant_move_and_stop_change_nothing
             (self_after (move 0%nat (new Boat "Sea Explorer" 80 12) [])) 1%nat 0%nat [] [])
             eq_refl)).
Defined.

End TransportFacts.

(** * Properties of the device domain *)

Module DeviceFacts.

Import Devices Devices.Electronics.
Import Smartphone.

(** Opens a smartphone down to its attributes. *)
Ltac open_phone p :=
  destruct p as [? ? ? ? ? ? ? ? [? ? ? ? ? ? ? ?]].

(** Runs the method bodies on opened objects, leaving the formatted text and
    the list and integer operations alone. *)
Ltac run_method :=
  cbv [invoke_phone invoke_base invoke_laptop effect pure
       Smartphone.__init__ Laptop.__init__ Electronics.__init__
       unlock_screen lock_screen add_contact install_app take_photo make_call
       check_battery charge_battery get_contacts get_installed_apps
       power_on power_off Laptop.run_program Laptop.close_program
       set___contacts set___apps_installed set___battery_level set___screen_locked
       Laptop.set___programs_running Laptop.set___cpu_usage
       Laptop.programs_running Laptop.cpu_usage
       Laptop.__programs_running Laptop.__cpu_usage
       Laptop.os Laptop.ram_gb Laptop.storage_gb Laptop.screen_size
       contacts apps_installed battery_level screen_locked
       os storage_gb camera_mp battery_mah
       __contacts __apps_installed __battery_level __screen_locked
       set___is_on set___power_consumption set_extra
       brand model price warranty_years _serial_number _manufacture_date
       __is_on __power_consumption extra
       total_devices stdout echo Console_World Console_Stdout
       bind this assign print ret self_after result globals_after fst snd negb] in *.

(** Splits on the tests a method body branches on. *)
Ltac branch :=
  repeat match goal with
    | |- context [if ?b then _ else _] => destruct b
    | |- context [match ?o with Some _ => _ | None => _ end] => destruct o
    end.

Section WithRuntime.

Context {rt : Runtime}.

(** No method call touches [Electronics.total_devices]. *)
Lemma total_devices_invoke_base {X} `{Klass X} (c : base_call)
    (self : Electronics.t X) (w : World) :
  total_devices (snd (invoke_base c self w)) = total_devices w.
Proof.
  destruct c; run_method; branch; reflexivity.
Qed.

Lemma total_devices_invoke_phone (c : phone_call) (self : Smartphone.t) (w : World) :
  total_devices (snd (invoke_phone c self w)) = total_devices w.
Proof.
  destruct c as [[] | | | | | | | | | | |]; run_method; branch; reflexivity.
Qed.

Lemma total_devices_invoke_laptop (c : laptop_call) (self : Laptop.t) (w : World) :
  total_devices (snd (invoke_laptop c self w)) = total_devices w.
Proof.
  destruct c as [[] | | |]; run_method; branch; reflexivity.
Qed.

(** C8: a constructor call of any class of the hierarchy ([Electronics]
    itself, [Smartphone], [Laptop]) raises [Electronics.total_devices] by
    exactly 1, and every method call of every class leaves the counter as it
    was, so that none lowers it. *)
Theorem total_devices_counts_constructions :
  (forall (X : Type) (K : Klass X) brand model price warranty_years draw today (x : X) w,
     total_devices (snd (Electronics.__init__ brand model price warranty_years
                           draw today x w))
       = total_devices w + 1) /\
  (forall brand model price os storage_gb camera_mp battery_mah warranty_years
          draw today w,
     total_devices (snd (Smartphone.__init__ brand model price os storage_gb camera_mp
                           battery_mah warranty_years draw today w))
       = total_devices w + 1) /\
  (forall brand model price os ram_gb storage_gb screen_size warranty_years
          draw today w,
     total_devices (snd (Laptop.__init__ brand model price os ram_gb storage_gb
                           screen_size warranty_years draw today w))
       = total_devices w + 1) /\
  (forall (c : base_call) (self : Electronics.t unit) w,
     total_devices (snd (invoke_base c self w)) = total_devices w) /\
  (forall (c : phone_call) (self : Smartphone.t) w,
     total_devices (snd (invoke_phone c self w)) = total_devices w) /\
  (forall (c : laptop_call) (self : Laptop.t) w,
     total_devices (snd (invoke_laptop c self w)) = total_devices w).
Proof.
  split; [| split; [| split; [| split; [| split]]]]; intros.
  - reflexivity.
  - reflexivity.
  - reflexivity.
  - apply total_devices_invoke_base.
  - apply total_devices_invoke_phone.
  - apply total_devices_invoke_laptop.
Qed.

(** C3, as the code has it: [unlock_screen(p)] returns [True] and leaves the
    screen unlocked exactly when the screen was already unlocked or [p] is the
    fixed passcode "1234"; on a locked smartphone, exactly when [p] is
    "1234". *)
Theorem unlock_screen_succeeds_iff (p : Smartphone.t) (passcode : string) (w : World) :
  (result (unlock_screen passcode p w) = true /\
   screen_locked (self_after (unlock_screen passcode p w)) = false)
  <-> (screen_locked p = false \/ passcode = "1234").
Proof.
  open_phone p. run_method.
  match goal with b : bool |- _ => destruct b end.
  - destruct (String.eqb_spec passcode "1234") as [-> | Hne]; cbn.
    + split; auto.
    + split.
      * intros [Hf _]. discriminate.
      * intros [Hf | He]; [discriminate | contradiction].
  - cbn. split; auto.
Qed.

(** C4: on a smartphone whose screen is locked, each of [add_contact],
    [install_app], [take_photo], [make_call], [get_contacts] and
    [get_installed_apps] returns a falsy or empty value ([False], [None],
    [[]]), leaves the object as it was, and only prints the request to unlock
    the screen. *)
Theorem locked_screen_refuses (p : Smartphone.t) (w : World)
    (name phone_number app_name now contact_name : string) :
  screen_locked p = true ->
  (result (add_contact name phone_number p w) = false /\
   self_after (add_contact name phone_number p w) = p /\
   globals_after (add_contact name phone_number p w)
     = echo "🔒 Please unlock screen first!" w) /\
  (result (install_app app_name p w) = false /\
   self_after (install_app app_name p w) = p /\
   globals_after (install_app app_name p w) = echo "🔒 Please unlock screen first!" w) /\
  (result (take_photo now p w) = None /\
   self_after (take_photo now p w) = p /\
   globals_after (take_photo now p w) = echo "🔒 Please unlock screen first!" w) /\
  (result (make_call contact_name p w) = false /\
   self_after (make_call contact_name p w) = p /\
   globals_after (make_call contact_name p w) = echo "🔒 Please unlock screen first!" w) /\
  (result (get_contacts p w) = [] /\
   self_after (get_contacts p w) = p /\
   globals_after (get_contacts p w) = echo "🔒 Please unlock screen first!" w) /\
  (result (get_installed_apps p w) = [] /\
   self_after (get_installed_apps p w) = p /\
   globals_after (get_installed_apps p w) = echo "🔒 Please unlock screen first!" w).
Proof.
  intros Hlocked. open_phone p. run_method. subst.
  repeat split.
Qed.

(** C9: on an unlocked smartphone with [battery_level > 5], [take_photo]
    returns a file name that starts with "HD" when [camera_mp >= 12] and with
    "Standard" otherwise, and [battery_level] drops by exactly 3; with
    [battery_level <= 5] it returns [None] and [battery_level] stays. *)
Theorem take_photo_labels_and_drains (p : Smartphone.t) (now : string) (w : World) :
  screen_locked p = false ->
  (5 < battery_level p ->
     (12 <= camera_mp (extra p) ->
        result (take_photo now p w) = Some ("HD" ++ "_photo_" ++ now ++ ".jpg") /\
        labeled "HD" (result (take_photo now p w))) /\
     (camera_mp (extra p) < 12 ->
        result (take_photo now p w) = Some ("Standard" ++ "_photo_" ++ now ++ ".jpg") /\
        labeled "Standard" (result (take_photo now p w))) /\
     battery_level (self_after (take_photo now p w)) = battery_level p - 3) /\
  (battery_level p <= 5 ->
     result (take_photo now p w) = None /\
     battery_level (self_after (take_photo now p w)) = battery_level p).
Proof.
  intros Hunlocked.
  destruct p as [br mo pr wy sn md on pc [sys gb mp mah cs apps level locked]].
  run_method. subst locked.
  split; intros Hlevel.
  - destruct (Z.gtb_spec level 5) as [_ | Hlow]; [| lia].
    destruct (Z.geb_spec mp 12) as [Hhd | Hstd].
    + repeat split; intros; try reflexivity; try discriminate; lia.
    + repeat split; intros; try reflexivity; try discriminate; lia.
  - destruct (Z.gtb_spec level 5) as [Hhigh | _]; [lia |].
    split; reflexivity.
Qed.

(** [x in xs] is list membership. *)
Lemma contains_In (x : string) (xs : list string) :
  contains x xs = true <-> In x xs.
Proof.
  unfold contains. rewrite existsb_exists. split.
  - intros [y [Hin Heq]]. apply String.eqb_eq in Heq. subst. exact Hin.
  - intros Hin. exists x. split; [exact Hin | apply String.eqb_refl].
Qed.

(** C10, as the code has it: every freshly constructed smartphone, whatever
    its storage, has exactly the three apps "Phone", "Messages" and "Settings";
    when it was constructed with [storage_gb <= 15] and is unlocked, [install_app] returns [False] for every
    app name and leaves the object as it was, reporting insufficient storage
    for a name that is none of the three, and that the app is already installed
    for a name that is one of them. *)
Theorem install_app_fails_on_small_fresh_phone
    (brand model : string) (price : Q) (os : string)
    (storage_gb camera_mp battery_mah warranty_years draw : Z) (today : string)
    (w w' : World) (app_name : string) :
  apps_installed (fst (Smartphone.__init__ brand model price os storage_gb camera_mp
                         battery_mah warranty_years draw today w))
    = ["Phone"; "Messages"; "Settings"] /\
  (storage_gb <= 15 ->
   forall p : Smartphone.t,
    p = fst (unlocked (Smartphone.__init__ brand model price os storage_gb camera_mp
                         battery_mah warranty_years draw today w)) ->
    screen_locked p = false /\
    result (install_app app_name p w') = false /\
    self_after (install_app app_name p w') = p /\
    (~ In app_name preinstalled ->
       globals_after (install_app app_name p w') = echo "💾 Not enough storage space!" w') /\
    (In app_name preinstalled ->
       globals_after (install_app app_name p w')
         = echo ("ℹ️ " ++ app_name ++ " is already installed") w')).
Proof.
  split; [reflexivity |].
  intros Hsmall p ->.
  assert (Hfull : (len preinstalled <? storage_gb / 4) = false).
  { apply Z.ltb_ge. cbn. apply Z.lt_succ_r.
    apply Z.div_lt_upper_bound; lia. }
  unfold unlocked. run_method. cbn [String.eqb Ascii.eqb Bool.eqb].
  fold preinstalled. rewrite Hfull.
  destruct (contains app_name preinstalled) eqn:Hc.
  - apply contains_In in Hc. repeat split; intros; try reflexivity; contradiction.
  - assert (Hnot : ~ In app_name preinstalled).
    { intros Hin. apply contains_In in Hin. congruence. }
    repeat split; intros; try reflexivity; contradiction.
Qed.

(** X1: [charge_battery(amount)] leaves [battery_level] at
    [min(100, battery_level + amount)] and changes nothing else of the
    object. *)
Theorem charge_battery_caps_at_100 (p : Smartphone.t) (amount : Z) (w : World) :
  self_after (charge_battery amount p w)
    = set___battery_level (Z.min 100 (battery_level p + amount)) p /\
  battery_level (self_after (charge_battery amount p w))
    = Z.min 100 (battery_level p + amount).
Proof.
  open_phone p. split; reflexivity.
Qed.

(** One call of any method keeps [battery_level] at or below 100. *)
Lemma battery_level_le_100_invoke (c : phone_call) (p : Smartphone.t) (w : World) :
  battery_level p <= 100 ->
  battery_level (fst (invoke_phone c p w)) <= 100.
Proof.
  intros Hle. open_phone p.
  destruct c as [[] | | | | | | | | | | |]; run_method; branch; cbn; lia.
Qed.

(** X2: whatever script of calls runs on a freshly constructed smartphone,
    [battery_level] never exceeds 100. *)
Theorem battery_level_never_exceeds_100
    (brand model : string) (price : Q) (os : string)
    (storage_gb camera_mp battery_mah warranty_years draw : Z) (today : string)
    (w : World) (cs : list phone_call) :
  battery_level
    (fst (run_phone cs
            (fst (Smartphone.__init__ brand model price os storage_gb camera_mp
                    battery_mah warranty_years draw today w))
            (snd (Smartphone.__init__ brand model price os storage_gb camera_mp
                    battery_mah warranty_years draw today w))))
    <= 100.
Proof.
  assert (Hrun : forall cs p w, battery_level p <= 100 ->
                   battery_level (fst (run_phone cs p w)) <= 100).
  { clear. induction cs as [| c cs IH]; intros p w Hle.
    - exact Hle.
    - cbn [run_phone]. apply IH. apply battery_level_le_100_invoke. exact Hle. }
  apply Hrun. cbn. lia.
Qed.

(** X3: [take_photo] and [make_call] check the battery before they draw on it:
    neither takes a non-negative [battery_level] below zero. *)
Theorem guarded_calls_keep_battery_level_nonnegative
    (p : Smartphone.t) (now contact_name : string) (w : World) :
  0 <= battery_level p ->
  0 <= battery_level (self_after (take_photo now p w)) /\
  0 <= battery_level (self_after (make_call contact_name p w)).
Proof.
  intros Hle. open_phone p. run_method.
  split.
  - match goal with |- context [?x >? 5] => destruct (Z.gtb_spec x 5) end;
      branch; cbn in *; lia.
  - match goal with |- context [?x >? 10] => destruct (Z.gtb_spec x 10) end;
      branch; cbn in *; lia.
Qed.

End WithRuntime.

(** *** The model at concrete inputs *)

Lemma guarded_calls_keep_battery_level_nonnegative_witness :
  screen_locked worn_phone = false /\
  battery_level worn_phone = 13 /\
  0 <= battery_level worn_phone /\
  result (take_photo "20250101_120000" worn_phone boot)
    = Some "HD_photo_20250101_120000.jpg" /\
  battery_level (self_after (take_photo "20250101_120000" worn_phone boot)) = 10 /\
  result (@make_call ascii_runtime "alice smith" worn_phone boot) = true /\
  battery_level (self_after (@make_call ascii_runtime "alice smith" worn_phone boot)) = 8 /\
  0 <= battery_level (self_after (take_photo "20250101_120000" worn_phone boot)) /\
  0 <= battery_level (self_after (@make_call ascii_runtime "alice smith" worn_phone boot)).
Proof.
  assert (Hlevel : 0 <= battery_level worn_phone) by (vm_compute; discriminate).
  split; [vm_compute; reflexivity |].
  split; [vm_compute; reflexivity |].
  split; [exact Hlevel |].
  split; [vm_compute; reflexivity |].
  split; [vm_compute; reflexivity |].
  split; [vm_compute; reflexivity |].
  split; [vm_compute; reflexivity |].
  exact (@guarded_calls_keep_battery_level_nonnegative ascii_runtime
           worn_phone "20250101_120000" "alice smith" boot Hlevel).
Defined.

(** C1 fails on the code: the driver's own phone (256 GB, so room for 64 apps),
    unlocked and asked to install 51 apps, ends with a battery level of -2.
    Every call of the script is one of the claim's public operations. *)
Theorem install_app_drains_battery_below_zero :
  forallb battery_call (UnlockScreen "1234" :: map InstallApp (app_names 51)) = true /\
  battery_level
    (fst (@run_phone ascii_runtime (UnlockScreen "1234" :: map InstallApp (app_names 51))
            (fst (demo_phone boot)) (snd (demo_phone boot))))
    = -2.
Proof.
  split; vm_compute; reflexivity.
Qed.

(** [charge_battery] with a negative amount does the same in one call. *)
Example charge_battery_negative_amount :
  battery_level (self_after (charge_battery (-150) (fst (demo_phone boot))
                               (snd (demo_phone boot))))
    = -50.
Proof. reflexivity. Qed.

(** C3, as the claim states it, fails: once the driver's phone is unlocked,
    [unlock_screen("0000")] returns [True] and leaves the screen unlocked. *)
Lemma unlock_screen_accepts_any_passcode_once_unlocked :
  @reachable ascii_runtime (fst (unlocked (demo_phone boot))) /\
  result (unlock_screen "0000" (fst (unlocked (demo_phone boot)))
            (snd (unlocked (demo_phone boot)))) = true /\
  screen_locked
    (self_after (unlock_screen "0000" (fst (unlocked (demo_phone boot)))
                   (snd (unlocked (demo_phone boot))))) = false /\
  "0000" <> "1234".
Proof.
  split; [| repeat split; discriminate].
  exists "TechPro", "X15 Pro", (89999 # 100)%Q, "Android 14", 256, 48, 4500, 2,
         123456, "2025-01-01", boot, [UnlockScreen "1234"].
  reflexivity.
Qed.

Lemma locked_screen_refuses_witness :
  screen_locked (fst (demo_phone boot)) = true /\
  result (take_photo "20250101_120000" (fst (demo_phone boot)) (snd (demo_phone boot)))
    = None /\
  self_after (take_photo "20250101_120000" (fst (demo_phone boot)) (snd (demo_phone boot)))
    = fst (demo_phone boot).
Proof.
  split; [reflexivity |].
  pose proof (@locked_screen_refuses ascii_runtime (fst (demo_phone boot))
                (snd (demo_phone boot)) "Alice Smith" "+254712345678" "WhatsApp"
                "20250101_120000" "Alice Smith" eq_refl) as H.
  destruct H as [_ [_ [[Hres [Hself _]] _]]].
  split; [exact Hres | exact Hself].
Defined.

Lemma take_photo_labels_and_drains_witness :
  screen_locked (fst (unlocked (demo_phone boot))) = false /\
  result (take_photo "20250101_120000" (fst (unlocked (demo_phone boot)))
            (snd (unlocked (demo_phone boot))))
    = Some "HD_photo_20250101_120000.jpg" /\
  battery_level
    (self_after (take_photo "20250101_120000" (fst (unlocked (demo_phone boot)))
                   (snd (unlocked (demo_phone boot)))))
    = 97.
Proof.
  split; [reflexivity |].
  pose proof (take_photo_labels_and_drains (fst (unlocked (demo_phone boot)))
                "20250101_120000" (snd (unlocked (demo_phone boot))) eq_refl) as [H _].
  assert (Hlevel : 5 < battery_level (fst (unlocked (demo_phone boot)))) by (cbn; lia).
  destruct (H Hlevel) as [Hhd [_ Hdrain]].
  assert (Hmp : 12 <= camera_mp (extra (fst (unlocked (demo_phone boot))))) by (cbn; lia).
  destruct (Hhd Hmp) as [Hres _].
  split; [exact Hres | exact Hdrain].
Defined.

Lemma install_app_fails_on_small_fresh_phone_witness :
  8 <= 15 /\
  apps_installed (fst (small_phone boot)) = ["Phone"; "Messages"; "Settings"] /\
  apps_installed (fst (demo_phone boot)) = ["Phone"; "Messages"; "Settings"] /\
  result (install_app "WhatsApp" (fst (unlocked (small_phone boot)))
            (snd (unlocked (small_phone boot)))) = false /\
  globals_after (install_app "WhatsApp" (fst (unlocked (small_phone boot)))
                   (snd (unlocked (small_phone boot))))
    = echo "💾 Not enough storage space!" (snd (unlocked (small_phone boot))).
Proof.
  assert (Hsmall : 8 <= 15) by lia.
  split; [exact Hsmall |].
  destruct (install_app_fails_on_small_fresh_phone "TechPro" "Mini" (9999 # 100)
              "Android 14" 8 8 3000 2 654321 "2025-01-01" boot
              (snd (unlocked (small_phone boot))) "WhatsApp") as [Hthree H].
  split; [exact Hthree |].
  split.
  - exact (proj1 (install_app_fails_on_small_fresh_phone "TechPro" "X15 Pro"
                    (89999 # 100) "Android 14" 256 48 4500 2 123456 "2025-01-01" boot
                    boot "WhatsApp")).
  - destruct (H Hsmall (fst (unlocked (small_phone boot))) eq_refl)
      as [_ [Hres [_ [Hfull _]]]].
    split; [exact Hres |].
    apply Hfull. cbn. intros [H1 | [H2 | [H3 | []]]]; discriminate.
Defined.

(** C10, as the claim states it, fails: on a fresh unlocked phone with 8 GB,
    [install_app("Phone")] fails because the app is already installed, and
    says so; it does not report insufficient storage. *)
Lemma install_app_reports_preinstalled_app_on_small_phone :
  storage_gb (extra (fst (unlocked (small_phone boot)))) <= 15 /\
  screen_locked (fst (unlocked (small_phone boot))) = false /\
  result (install_app "Phone" (fst (unlocked (small_phone boot)))
            (snd (unlocked (small_phone boot)))) = false /\
  globals_after (install_app "Phone" (fst (unlocked (small_phone boot)))
                   (snd (unlocked (small_phone boot))))
    = echo "ℹ️ Phone is already installed" (snd (unlocked (small_phone boot))) /\
  globals_after (install_app "Phone" (fst (unlocked (small_phone boot)))
                   (snd (unlocked (small_phone boot))))
    <> echo "💾 Not enough storage space!" (snd (unlocked (small_phone boot))).
Proof.
  split; [cbn; lia |].
  repeat split. intros H. vm_compute in H. discriminate H.
Qed.


End DeviceFacts.

(** * The transport domain under scripts of all its methods *)

Module TransportScripts.

Import Transport.

(** Opens the object of whichever class [v] is, down to the attributes of the
    subclass. *)
Ltac open_vehicle v :=
  destruct v as [[? ? ? ? ? ? ? ? [? ?]] | [? ? ? ? ? ? ? ? [? ?]]
                | [? ? ? ? ? ? ? ? [?]] | [? ? ? ? ? ? ? ? [? ?]]
                | [? ? ? ? ? ? ? ? [? ?]]].

(** Runs the method bodies on opened objects, leaving the formatted text and
    the integer comparisons alone. *)
Ltac run_method :=
  cbv [invoke_any move stop accelerate invoke dispatch speed limit moving attr
       class_of starting_speed consistent fixed_attributes
       car_gear plane_state boat_anchor_down bicycle_pedaling train_station
       Car.move Car.stop Car.make_sound Car.shift_gear Car.set_gear
       Plane.move Plane.stop Plane.make_sound Plane.climb_altitude
       Boat.move Boat.stop Boat.make_sound Boat.drop_anchor
       Bicycle.move Bicycle.stop Bicycle.make_sound Bicycle.ring_bell
       Train.move Train.stop Train.make_sound Train.change_station Train.set_station
       Plane.set_altitude Plane.set_is_airborne Boat.set_anchor_down
       Bicycle.set_pedaling Plane.altitude Plane.is_airborne Boat.anchor_down
       Bicycle.pedaling Bicycle.gear Train.station Train.cars Car.gear Car.doors
       Vehicle.accelerate Vehicle.set_current_speed Vehicle.set_is_moving
       Vehicle.set_extra Vehicle.current_speed Vehicle.max_speed Vehicle.is_moving
       Vehicle.name Vehicle.extra Vehicle.fuel_type Vehicle.capacity
       Vehicle.fuel_level Vehicle.distance_traveled
       Car.__init__ Plane.__init__ Boat.__init__ Bicycle.__init__ Train.__init__
       Vehicle.__init__ new
       bind this assign print ret self_after result globals_after fst snd
       negb andb] in *.

(** Splits on every flag of the opened object. *)
Ltac flags :=
  repeat match goal with b : bool |- _ => destruct b end.

(** Splits on the range test of [shift_gear]. *)
Ltac gear_range :=
  repeat match goal with
    | |- context [?a <=? ?b] => destruct (Z.leb_spec a b)
    | H : context [?a <=? ?b] |- _ => destruct (Z.leb_spec a b)
    end.

(** A call that the object has returns it in the same class, with the
    attributes of [Vehicle.__init__] other than speed and motion as they
    were. *)
Lemma invoke_any_frame (c : method_call) (v : vehicle) (out : Stdout)
    (r : unit * vehicle * Stdout) :
  invoke_any c v out = Some r ->
  class_of (self_after r) = class_of v /\
  fixed_attributes (self_after r) = fixed_attributes v.
Proof.
  destruct c as [[] | | | | |]; open_vehicle v; run_method; intros H;
    try discriminate H; injection H as <-; flags; gear_range; split; reflexivity.
Qed.

Lemma consistent_invoke_any (c : method_call) (v : vehicle) (out : Stdout)
    (r : unit * vehicle * Stdout) :
  invoke_any c v out = Some r ->
  consistent v ->
  consistent (self_after r).
Proof.
  destruct c as [[] | | | | |]; open_vehicle v; run_method; intros H;
    try discriminate H; injection H as <-; flags; gear_range;
    intros [Hstill Hclass]; repeat split; intros;
    try (specialize (Hstill eq_refl));
    try reflexivity; try discriminate; try lia; try tauto;
    try (destruct Hclass; auto; lia || discriminate).
Qed.

Lemma consistent_new (k : variant) (name : string) (max_speed capacity : Z) :
  consistent (new k name max_speed capacity).
Proof.
  destruct k; run_method; repeat split; intros; reflexivity || lia.
Qed.

Lemma run_any_keeps (P : vehicle -> Prop) :
  (forall c v out r, invoke_any c v out = Some r -> P v -> P (self_after r)) ->
  forall cs v out v' out',
    run_any cs v out = Some (v', out') -> P v -> P v'.
Proof.
  intros Hstep. induction cs as [| c cs IH]; intros v out v' out' Hrun Hv.
  - injection Hrun as <- _. exact Hv.
  - cbn [run_any] in Hrun.
    destruct (invoke_any c v out) as [r |] eqn:Hc; [| discriminate Hrun].
    apply (IH _ _ _ _ Hrun). apply (Hstep _ _ _ _ Hc Hv).
Qed.

Lemma consistent_run_any (cs : list method_call) (v : vehicle) (out : Stdout)
    (v' : vehicle) (out' : Stdout) :
  run_any cs v out = Some (v', out') -> consistent v -> consistent v'.
Proof.
  apply (run_any_keeps consistent). exact consistent_invoke_any.
Qed.

Lemma class_of_run_any (cs : list method_call) (v : vehicle) (out : Stdout)
    (v' : vehicle) (out' : Stdout) :
  run_any cs v out = Some (v', out') -> class_of v' = class_of v.
Proof.
  intros Hrun.
  apply (run_any_keeps (fun u => class_of u = class_of v)
           (fun c u o r Hc Hu => eq_trans (proj1 (invoke_any_frame c u o r Hc)) Hu)
           cs v out v' out' Hrun eq_refl).
Qed.

(** X4: [shift_gear(g)] changes nothing of the car unless [1 <= g <= 6] and
    the car is moving, and then it sets only the gear; so the gear of a car is
    one of 1..6 after every script of calls on a constructed car. *)
Theorem car_gear_stays_in_range
    (cs : list method_call) (name : string) (max_speed capacity : Z)
    (out : Stdout) (v : vehicle) (out' : Stdout) :
  run_any cs (new Car name max_speed capacity) out = Some (v, out') ->
  (exists g, car_gear v = Some g /\ 1 <= g <= 6) /\
  (forall (c : Car.t) (g : Z) (o : Stdout),
     g < 1 \/ 6 < g \/ Vehicle.is_moving c = false ->
     self_after (Car.shift_gear g c o) = c) /\
  (forall (c : Car.t) (g : Z) (o : Stdout),
     1 <= g <= 6 -> Vehicle.is_moving c = true ->
     self_after (Car.shift_gear g c o) = Car.set_gear g c).
Proof.
  intros Hrun. split; [| split].
  - pose proof (class_of_run_any _ _ _ _ _ Hrun) as Hclass.
    pose proof (consistent_run_any _ _ _ _ _ Hrun (consistent_new _ _ _ _)) as [_ Hgear].
    destruct v; try discriminate Hclass.
    eexists. split; [reflexivity | exact Hgear].
  - intros [? ? ? ? ? moves ? ? [? ?]] g o Hbad. run_method.
    destruct moves; gear_range; try reflexivity.
    destruct Hbad as [Hlow | [Hhigh | Hstill]]; lia || discriminate.
  - intros [? ? ? ? ? moves ? ? [? ?]] g o Hrange Hmoves. run_method.
    cbn in Hmoves. subst moves. gear_range; try reflexivity; lia.
Qed.

Lemma car_gear_stays_in_range_witness :
  run_any [Common (Move 0%nat); ShiftGear 3; ShiftGear 9; Common Stop; ShiftGear 5]
    (new Car "Toyota Camry" 200 5) []
    <> None /\
  exists v out',
    run_any [Common (Move 0%nat); ShiftGear 3; ShiftGear 9; Common Stop; ShiftGear 5]
      (new Car "Toyota Camry" 200 5) [] = Some (v, out') /\
    car_gear v = Some 3 /\
    exists g, car_gear v = Some g /\ 1 <= g <= 6.
Proof.
  split; [discriminate |].
  eexists. eexists. split; [reflexivity |]. split; [reflexivity |].
  exact (proj1 (car_gear_stays_in_range
                  [Common (Move 0%nat); ShiftGear 3; ShiftGear 9; Common Stop; ShiftGear 5]
                  "Toyota Camry" 200 5 [] _ _ eq_refl)).
Defined.

(** X5: after every script of calls on a constructed plane, the plane is
    airborne exactly when it is moving, and a plane that is not moving is at
    altitude 0. *)
Theorem plane_airborne_iff_moving
    (cs : list method_call) (name : string) (max_speed capacity : Z)
    (out : Stdout) (v : vehicle) (out' : Stdout) :
  run_any cs (new Plane name max_speed capacity) out = Some (v, out') ->
  exists altitude airborne,
    plane_state v = Some (altitude, airborne) /\
    airborne = moving v /\
    (moving v = false -> altitude = 0).
Proof.
  intros Hrun.
  pose proof (class_of_run_any _ _ _ _ _ Hrun) as Hclass.
  pose proof (consistent_run_any _ _ _ _ _ Hrun (consistent_new _ _ _ _)) as [_ Hplane].
  destruct v; try discriminate Hclass.
  do 2 eexists. split; [reflexivity | exact Hplane].
Qed.

Lemma plane_airborne_iff_moving_witness :
  exists v out',
    run_any [ClimbAltitude 500; Common (Move 1%nat); ClimbAltitude 10000; Common Stop]
      (new Plane "Boeing 747" 900 200) [] = Some (v, out') /\
    exists altitude airborne,
      plane_state v = Some (altitude, airborne) /\
      airborne = moving v /\
      (moving v = false -> altitude = 0).
Proof.
  do 2 eexists. split; [reflexivity |].
  exact (plane_airborne_iff_moving
           [ClimbAltitude 500; Common (Move 1%nat); ClimbAltitude 10000; Common Stop]
           "Boeing 747" 900 200 [] _ _ eq_refl).
Defined.

(** X6: after every script of calls on a constructed boat, the anchor is down
    exactly when the boat is not moving; so [drop_anchor] finds nothing to do
    on such a boat: it leaves the object as it was and only prints that the
    anchor is already down or the boat is moving. *)
Theorem boat_anchor_follows_motion
    (cs : list method_call) (name : string) (max_speed capacity : Z)
    (out : Stdout) (v : vehicle) (out' : Stdout) (o : Stdout) :
  run_any cs (new Boat name max_speed capacity) out = Some (v, out') ->
  boat_anchor_down v = Some (negb (moving v)) /\
  invoke_any DropAnchor v o
    = Some (tt, v, (o ++ ["⚓ Anchor is already down or boat is moving!"])%list).
Proof.
  intros Hrun.
  pose proof (class_of_run_any _ _ _ _ _ Hrun) as Hclass.
  pose proof (consistent_run_any _ _ _ _ _ Hrun (consistent_new _ _ _ _)) as [_ Hboat].
  destruct v as [| | b | |]; try discriminate Hclass.
  destruct b as [? ? ? ? ? moves ? ? [down]]. run_method. subst down.
  destruct moves; split; reflexivity.
Qed.

Lemma boat_anchor_follows_motion_witness :
  exists v out',
    run_any [Common (Move 0%nat); DropAnchor; Common (Accelerate 10)]
      (new Boat "Sea Explorer" 80 12) [] = Some (v, out') /\
    boat_anchor_down v = Some (negb (moving v)) /\
    invoke_any DropAnchor v []
      = Some (tt, v, ["⚓ Anchor is already down or boat is moving!"]).
Proof.
  do 2 eexists. split; [reflexivity |].
  exact (boat_anchor_follows_motion
           [Common (Move 0%nat); DropAnchor; Common (Accelerate 10)]
           "Sea Explorer" 80 12 [] _ _ [] eq_refl).
Defined.

(** X7: after every script of calls on a constructed bicycle, the bicycle is
    being pedalled exactly when it is moving. *)
Theorem bicycle_pedaling_iff_moving
    (cs : list method_call) (name : string) (max_speed capacity : Z)
    (out : Stdout) (v : vehicle) (out' : Stdout) :
  run_any cs (new Bicycle name max_speed capacity) out = Some (v, out') ->
  bicycle_pedaling v = Some (moving v).
Proof.
  intros Hrun.
  pose proof (class_of_run_any _ _ _ _ _ Hrun) as Hclass.
  pose proof (consistent_run_any _ _ _ _ _ Hrun (consistent_new _ _ _ _)) as [_ Hbike].
  destruct v; try discriminate Hclass.
  cbn in *. rewrite Hbike. reflexivity.
Qed.

Lemma bicycle_pedaling_iff_moving_witness :
  exists v out',
    run_any [RingBell; Common (Move 2%nat); Common (Accelerate 5)]
      (new Bicycle "Mountain Bike" 50 1) [] = Some (v, out') /\
    bicycle_pedaling v = Some (moving v).
Proof.
  do 2 eexists. split; [reflexivity |].
  exact (bicycle_pedaling_iff_moving
           [RingBell; Common (Move 2%nat); Common (Accelerate 5)]
           "Mountain Bike" 50 1 [] _ _ eq_refl).
Defined.

(** X8: [change_station(s)] on a moving train changes nothing and prints
    nothing; on a stopped train it sets only the station, and the next [move]
    announces the departure from [s]. *)
Theorem change_station_only_while_stopped
    (t : Train.t) (s : string) (r : nat) (out out' : Stdout) :
  (Vehicle.is_moving t = true -> Train.change_station s t out = (tt, t, out)) /\
  (Vehicle.is_moving t = false ->
     self_after (Train.change_station s t out) = Train.set_station s t /\
     Train.station (Vehicle.extra (self_after (Train.change_station s t out))) = s /\
     Train.cars (Vehicle.extra (self_after (Train.change_station s t out)))
       = Train.cars (Vehicle.extra t) /\
     hd_error (skipn (length out')
                 (globals_after
                    (Train.move r (self_after (Train.change_station s t out)) out')))
       = Some ("🚂 All aboard! " ++ Vehicle.name t ++ " is departing from " ++ s ++ "...")).
Proof.
  destruct t as [? ? ? ? ? moves ? ? [? ?]]. run_method.
  split; intros Hm; subst moves; [reflexivity |].
  repeat split.
  cbv [echo Console_Stdout]. rewrite <- !app_assoc.
  rewrite skipn_app, skipn_all, Nat.sub_diag. reflexivity.
Qed.

Lemma change_station_only_while_stopped_witness :
  Train.change_station "Harbour"
    (self_after (Train.move 0%nat (Train.__init__ "Express Train" 300 500) [])) []
    = (tt, self_after (Train.move 0%nat (Train.__init__ "Express Train" 300 500) []), []) /\
  Train.station
    (Vehicle.extra
       (self_after (Train.change_station "Harbour"
                      (Train.__init__ "Express Train" 300 500) [])))
    = "Harbour".
Proof.
  split.
  - exact (proj1 (change_station_only_while_stopped
             (self_after (Train.move 0%nat (Train.__init__ "Express Train" 300 500) []))
             "Harbour" 0%nat [] []) eq_refl).
  - exact (proj1 (proj2 (proj2 (change_station_only_while_stopped
             (Train.__init__ "Express Train" 300 500) "Harbour" 0%nat [] []) eq_refl))).
Defined.

(** X9: on a vehicle of any class that a script of calls left stopped, [move]
    followed by [stop] gives the object back exactly as it was: speed 0, on
    the ground, anchored, not pedalling, gear and station kept. *)
Theorem move_then_stop_restores
    (cs : list method_call) (k : variant) (name : string) (max_speed capacity : Z)
    (out : Stdout) (v : vehicle) (out' : Stdout) (r : nat) (o o' : Stdout) :
  run_any cs (new k name max_speed capacity) out = Some (v, out') ->
  moving v = false ->
  self_after (stop (self_after (move r v o)) o') = v.
Proof.
  intros Hrun Hstill.
  pose proof (consistent_run_any _ _ _ _ _ Hrun (consistent_new _ _ _ _)) as Hv.
  clear Hrun. revert Hstill Hv.
  open_vehicle v; run_method; intros Hstill [Hzero Hclass]; subst;
    specialize (Hzero eq_refl); subst; cbn in *;
    try match type of Hclass with
        | _ /\ (_ = false -> _) =>
            destruct Hclass as [Hair Halt]; specialize (Halt eq_refl)
        end; subst;
    reflexivity.
Qed.

Lemma move_then_stop_restores_witness :
  exists v out',
    run_any [Common (Move 0%nat); Common (Accelerate 20); Common Stop]
      (new Boat "Sea Explorer" 80 12) [] = Some (v, out') /\
    moving v = false /\
    self_after (stop (self_after (move 1%nat v [])) []) = v.
Proof.
  do 2 eexists. split; [reflexivity |]. split; [reflexivity |].
  exact (move_then_stop_restores
           [Common (Move 0%nat); Common (Accelerate 20); Common Stop]
           Boat "Sea Explorer" 80 12 [] _ _ 1%nat [] [] eq_refl eq_refl).
Defined.

(** X10: no script of calls changes the class of a vehicle, its name, maximum
    speed, fuel type or capacity, and none consumes fuel or adds distance:
    [fuel_level] and [distance_traveled] stay as they were (100 and 0 on a
    constructed vehicle). *)
Theorem scripts_keep_fixed_attributes
    (cs : list method_call) (v : vehicle) (out : Stdout) (v' : vehicle) (out' : Stdout) :
  run_any cs v out = Some (v', out') ->
  class_of v' = class_of v /\
  fixed_attributes v' = fixed_attributes v.
Proof.
  intros Hrun.
  apply (run_any_keeps
           (fun u => class_of u = class_of v /\ fixed_attributes u = fixed_attributes v)
           (fun c u o r Hc Hu =>
              conj (eq_trans (proj1 (invoke_any_frame c u o r Hc)) (proj1 Hu))
                   (eq_trans (proj2 (invoke_any_frame c u o r Hc)) (proj2 Hu)))
           cs v out v' out' Hrun (conj eq_refl eq_refl)).
Qed.

Lemma scripts_keep_fixed_attributes_witness :
  exists v' out',
    run_any [Common (Move 0%nat); Common (Accelerate 500); ChangeStation "Harbour";
             Common Stop; ChangeStation "Harbour"]
      (new Train "Express Train" 300 500) [] = Some (v', out') /\
    fixed_attributes v' = ("Express Train", 300, "Electric", 500, 100, 0).
Proof.
  do 2 eexists. split; [reflexivity |].
  exact (proj2 (scripts_keep_fixed_attributes
                  [Common (Move 0%nat); Common (Accelerate 500); ChangeStation "Harbour";
                   Common Stop; ChangeStation "Harbour"]
                  (new Train "Express Train" 300 500) [] _ _ eq_refl)).
Defined.

(** X11: two [accelerate] calls on a moving vehicle, the second with an
    increase that is not negative, leave the object as one call with the sum
    of the increases does; and an increase that is not negative never lowers
    the speed of a vehicle that is within its maximum. *)
Theorem accelerate_twice_is_accelerate_sum {X : Type}
    (v : Vehicle.t X) (d1 d2 : Z) (o1 o2 o3 : Stdout) :
  Vehicle.is_moving v = true ->
  0 <= d2 ->
  self_after (Vehicle.accelerate d2 (self_after (Vehicle.accelerate d1 v o1)) o2)
    = self_after (Vehicle.accelerate (d1 + d2) v o3) /\
  (Vehicle.current_speed v <= Vehicle.max_speed v ->
   Vehicle.current_speed v
     <= Vehicle.current_speed (self_after (Vehicle.accelerate d2 v o2))).
Proof.
  destruct v as [? top ? ? now moves ? ? ?]. run_method.
  intros -> Hd2. split.
  - f_equal. lia.
  - lia.
Qed.

Lemma accelerate_twice_is_accelerate_sum_witness :
  self_after
    (Vehicle.accelerate 100
       (self_after
          (Vehicle.accelerate 60
             (self_after (Car.move 0%nat (Car.__init__ "Toyota Camry" 200 5) [])) []))
       [])
  = self_after
      (Vehicle.accelerate (60 + 100)
         (self_after (Car.move 0%nat (Car.__init__ "Toyota Camry" 200 5) [])) []).
Proof.
  assert (Hd : 0 <= 100) by lia.
  exact (proj1 (accelerate_twice_is_accelerate_sum
                  (self_after (Car.move 0%nat (Car.__init__ "Toyota Camry" 200 5) []))
                  60 100 [] [] [] eq_refl Hd)).
Defined.

Lemma speed_bounds_invoke_any (c : method_call) (v : vehicle) (out : Stdout)
    (r : unit * vehicle * Stdout) :
  invoke_any c v out = Some r ->
  accelerates_forward c ->
  starting_speed (class_of v) <= limit v ->
  0 <= speed v <= limit v ->
  0 <= speed (self_after r) <= limit (self_after r).
Proof.
  destruct c as [[] | | | | |]; open_vehicle v; run_method; intros H;
    try discriminate H; injection H as <-; flags; gear_range; cbn; intros; lia.
Qed.

(** X12: on a vehicle of any class constructed with a maximum speed of at
    least the starting speed of its class, every script whose [accelerate]
    calls ask for increases that are not negative keeps the speed between 0
    and the maximum speed. *)
Theorem speed_stays_between_zero_and_max
    (cs : list method_call) (k : variant) (name : string) (max_speed capacity : Z)
    (out : Stdout) (v : vehicle) (out' : Stdout) :
  starting_speed k <= max_speed ->
  Forall accelerates_forward cs ->
  run_any cs (new k name max_speed capacity) out = Some (v, out') ->
  0 <= speed v <= limit v.
Proof.
  intros Hmax Hcs Hrun.
  assert (Hgen : forall cs u o,
            Forall accelerates_forward cs ->
            run_any cs u o = Some (v, out') ->
            starting_speed (class_of u) <= limit u ->
            0 <= speed u <= limit u ->
            0 <= speed v <= limit v).
  { clear. induction cs as [| c cs IH]; intros u o Hall Hrun Hstart Hu.
    - injection Hrun as <- _. exact Hu.
    - cbn [run_any] in Hrun.
      destruct (invoke_any c u o) as [r |] eqn:Hc; [| discriminate Hrun].
      inversion Hall as [| ? ? Hfwd Hrest]; subst.
      destruct (invoke_any_frame _ _ _ _ Hc) as [Hclass Hfixed].
      assert (Hlimit : limit (self_after r) = limit u).
      { revert Hfixed. clear. unfold fixed_attributes, limit.
        intros Hfixed. injection Hfixed. intros. assumption. }
      apply (IH _ _ Hrest Hrun).
      + rewrite Hclass, Hlimit. exact Hstart.
      + apply (speed_bounds_invoke_any _ _ _ _ Hc Hfwd Hstart Hu). }
  apply (Hgen cs _ _ Hcs Hrun).
  - destruct k; exact Hmax.
  - destruct k; cbn in *; lia.
Qed.

Lemma speed_stays_between_zero_and_max_witness :
  exists v out',
    run_any [Common (Move 0%nat); Common (Accelerate 500); ShiftGear 4; Common Stop]
      (new Car "Toyota Camry" 200 5) [] = Some (v, out') /\
    0 <= speed v <= limit v.
Proof.
  do 2 eexists. split; [reflexivity |].
  assert (Hmax : starting_speed Car <= 200) by (cbn; lia).
  assert (Hcs : Forall accelerates_forward
                  [Common (Move 0%nat); Common (Accelerate 500); ShiftGear 4; Common Stop]).
  { repeat constructor. cbn. lia. }
  exact (speed_stays_between_zero_and_max _ Car "Toyota Camry" 200 5 [] _ _ Hmax Hcs eq_refl).
Defined.

End TransportScripts.

(** * The device domain under scripts of its methods *)

Module DeviceScripts.

Import Devices Devices.Electronics.
Import Smartphone.

(** Opens a smartphone, or a laptop, down to its attributes. *)
Ltac open_phone p :=
  destruct p as [? ? ? ? ? ? ? ? [? ? ? ? ? ? ? ?]].

Ltac open_laptop l :=
  destruct l as [? ? ? ? ? ? ? ? [? ? ? ? ? ?]].

(** Runs the method bodies on opened objects, leaving the formatted text and
    the list and integer operations alone. *)
Ltac run_method :=
  cbv [invoke_phone invoke_base invoke_laptop effect pure
       phone_after laptop_after phone_identity
       Smartphone.__init__ Laptop.__init__ Electronics.__init__
       unlock_screen lock_screen add_contact install_app take_photo make_call
       check_battery charge_battery get_contacts get_installed_apps
       power_on power_off Laptop.run_program Laptop.close_program
       set___contacts set___apps_installed set___battery_level set___screen_locked
       Laptop.set___programs_running Laptop.set___cpu_usage
       Laptop.programs_running Laptop.cpu_usage
       Laptop.__programs_running Laptop.__cpu_usage
       Laptop.os Laptop.ram_gb Laptop.storage_gb Laptop.screen_size
       contacts apps_installed battery_level screen_locked
       os storage_gb camera_mp battery_mah
       __contacts __apps_installed __battery_level __screen_locked
       set___is_on set___power_consumption set_extra
       brand model price warranty_years _serial_number _manufacture_date
       __is_on __power_consumption extra
       _get_base_power_consumption Klass_Smartphone Laptop.Klass_Laptop Klass_Electronics
       total_devices stdout echo Console_World Console_Stdout
       bind this assign print ret self_after result globals_after fst snd negb] in *.

(** Splits on the tests a method body branches on. *)
Ltac branch :=
  repeat match goal with
    | |- context [if ?b then _ else _] => is_var b; destruct b
    | |- context [match find ?f ?xs with Some _ => _ | None => _ end] =>
        destruct (find f xs) eqn:?
    | |- context [if ?a >? ?b then _ else _] => destruct (Z.gtb_spec a b)
    | |- context [if ?a >=? ?b then _ else _] => destruct (Z.geb_spec a b)
    | |- context [if ?a <? ?b then _ else _] => destruct (Z.ltb_spec a b)
    | |- context [if contains ?a ?b then _ else _] => destruct (contains a b) eqn:?
    | |- context [if String.eqb ?a ?b then _ else _] => destruct (String.eqb_spec a b)
    end.

(** The same, without keeping the equations. *)
Ltac cases :=
  repeat match goal with
    | |- context [if ?b then _ else _] => is_var b; destruct b
    | |- context [match find ?f ?xs with Some _ => _ | None => _ end] =>
        destruct (find f xs)
    | |- context [if ?a >? ?b then _ else _] => destruct (a >? b)
    | |- context [if ?a >=? ?b then _ else _] => destruct (a >=? b)
    | |- context [if ?a <? ?b then _ else _] => destruct (a <? b)
    | |- context [if contains ?a ?b then _ else _] => destruct (contains a b)
    | |- context [if String.eqb ?a ?b then _ else _] => destruct (String.eqb a b)
    end.

(** A property one call keeps is kept by a script. *)
Lemma run_phone_keeps {rt : Runtime} (P : Smartphone.t -> Prop) (allowed : phone_call -> bool) :
  (forall c p w, allowed c = true -> P p -> P (fst (invoke_phone c p w))) ->
  forall cs p w, forallb allowed cs = true -> P p -> P (fst (run_phone cs p w)).
Proof.
  intros Hstep. induction cs as [| c cs IH]; intros p w Hall Hp.
  - exact Hp.
  - cbn [forallb] in Hall. apply andb_prop in Hall as [Hc Hcs].
    cbn [run_phone]. apply IH; [exact Hcs |]. apply Hstep; assumption.
Qed.

Lemma forallb_always {A : Type} (xs : list A) : forallb (fun _ => true) xs = true.
Proof.
  induction xs; [reflexivity | exact IHxs].
Qed.

Section WithRuntime.

Context {rt : Runtime}.

(** The power drawn follows the switch, whatever the class's base value is. *)
Lemma power_follows_switch_invoke_base {X} `{Klass X} (base : Z) (c : base_call)
    (self : Electronics.t X) (w : World) :
  (forall d, _get_base_power_consumption d = base) ->
  __power_consumption self = (if __is_on self then base else 0) ->
  __power_consumption (fst (invoke_base c self w))
    = (if __is_on (fst (invoke_base c self w)) then base else 0).
Proof.
  intros Hbase Hself. destruct self as [? ? ? ? ? ? on ? ?].
  destruct c; cbv [invoke_base effect pure power_on power_off set___is_on
                   set___power_consumption __is_on __power_consumption
                   bind this assign print ret self_after result globals_after
                   fst snd negb] in *;
    destruct on; try exact Hself; try reflexivity; apply Hbase.
Qed.

Lemma power_follows_switch_invoke_phone (c : phone_call) (p : Smartphone.t) (w : World) :
  __power_consumption p = (if __is_on p then 15 else 0) ->
  __power_consumption (fst (invoke_phone c p w))
    = (if __is_on (fst (invoke_phone c p w)) then 15 else 0).
Proof.
  intros Hp.
  destruct c as [b | | | | | | | | | | |];
    [ destruct b;
      try (apply (power_follows_switch_invoke_base 15); [reflexivity | exact Hp]);
      exact Hp
    | open_phone p; run_method; revert Hp; cases; intros Hp; exact Hp .. ].
Qed.

Lemma power_follows_switch_invoke_laptop (c : laptop_call) (l : Laptop.t) (w : World) :
  __power_consumption l = (if __is_on l then 65 else 0) ->
  __power_consumption (fst (invoke_laptop c l w))
    = (if __is_on (fst (invoke_laptop c l w)) then 65 else 0).
Proof.
  intros Hl.
  destruct c as [b | | |];
    [ apply (power_follows_switch_invoke_base 65); [reflexivity | exact Hl]
    | open_laptop l; run_method; revert Hl; cases; intros Hl; exact Hl .. ].
Qed.

(** X13: after every script of calls on a constructed device, the power drawn
    is the base value of the device's own class while it is switched on
    (Electronics 50, Smartphone 15, Laptop 65: [power_on] asks the overridable
    hook) and 0 while it is switched off. *)
Theorem power_consumption_follows_switch :
  (forall (cs : list base_call) brand model price warranty_years draw today w,
     let d := fst (run_base cs
                     (fst (Electronics.__init__ brand model price warranty_years
                             draw today tt w))
                     (snd (Electronics.__init__ brand model price warranty_years
                             draw today tt w))) in
     __power_consumption d = if __is_on d then 50 else 0) /\
  (forall (cs : list phone_call) brand model price os storage_gb camera_mp battery_mah
          warranty_years draw today w,
     let p := phone_after cs (Smartphone.__init__ brand model price os storage_gb
                                camera_mp battery_mah warranty_years draw today w) in
     __power_consumption p = if __is_on p then 15 else 0) /\
  (forall (cs : list laptop_call) brand model price os ram_gb storage_gb screen_size
          warranty_years draw today w,
     let l := laptop_after cs (Laptop.__init__ brand model price os ram_gb storage_gb
                                 screen_size warranty_years draw today w) in
     __power_consumption l = if __is_on l then 65 else 0).
Proof.
  split; [| split]; intros cs; intros.
  - subst d.
    assert (Hrun : forall cs (d : Electronics.t unit) w,
              __power_consumption d = (if __is_on d then 50 else 0) ->
              __power_consumption (fst (run_base cs d w))
                = (if __is_on (fst (run_base cs d w)) then 50 else 0)).
    { clear. induction cs as [| c cs IH]; intros d w Hd; [exact Hd |].
      cbn [run_base]. apply IH.
      apply (power_follows_switch_invoke_base 50); [reflexivity | exact Hd]. }
    apply Hrun. reflexivity.
  - subst p. unfold phone_after.
    assert (Hrun : forall cs p w,
              __power_consumption p = (if __is_on p then 15 else 0) ->
              __power_consumption (fst (run_phone cs p w))
                = (if __is_on (fst (run_phone cs p w)) then 15 else 0)).
    { clear. induction cs as [| c cs IH]; intros p w Hp; [exact Hp |].
      cbn [run_phone]. apply IH. apply power_follows_switch_invoke_phone. exact Hp. }
    apply Hrun. reflexivity.
  - subst l. unfold laptop_after.
    assert (Hrun : forall cs l w,
              __power_consumption l = (if __is_on l then 65 else 0) ->
              __power_consumption (fst (run_laptop cs l w))
                = (if __is_on (fst (run_laptop cs l w)) then 65 else 0)).
    { clear. induction cs as [| c cs IH]; intros l w Hl; [exact Hl |].
      cbn [run_laptop]. apply IH. apply power_follows_switch_invoke_laptop. exact Hl. }
    apply Hrun. reflexivity.
Qed.

(** What [make_call] looks for in the contact list. *)
Lemma find_contact_some (n : string) (cs : list contact) :
  (exists c, find (fun c => String.eqb (lower (name c)) (lower n)) cs = Some c)
  <-> (exists c, In c cs /\ lower (name c) = lower n).
Proof.
  split.
  - intros [c Hfind]. apply find_some in Hfind as [Hin Heq].
    exists c. split; [exact Hin | apply String.eqb_eq; exact Heq].
  - intros [c [Hin Heq]].
    destruct (find (fun c => String.eqb (lower (name c)) (lower n)) cs) as [c' |] eqn:Hfind.
    + exists c'. reflexivity.
    + apply (find_none _ _ Hfind) in Hin. cbn in Hin.
      rewrite Heq, String.eqb_refl in Hin. discriminate Hin.
Qed.

(** X14: [make_call(n)] returns [True] exactly when the screen is unlocked,
    some contact's name equals [n] up to letter case, and the battery level is
    above 10; it then takes 5 off the battery level and changes nothing else,
    and when it returns [False] the object is as it was. *)
Theorem make_call_succeeds_iff (p : Smartphone.t) (n : string) (w : World) :
  (result (make_call n p w) = true
   <-> screen_locked p = false /\
       (exists c, In c (contacts p) /\ lower (name c) = lower n) /\
       10 < battery_level p) /\
  (result (make_call n p w) = true ->
   self_after (make_call n p w) = set___battery_level (battery_level p - 5) p) /\
  (result (make_call n p w) = false -> self_after (make_call n p w) = p).
Proof.
  destruct p as [br mo pr wy sn md on pc [sys gb mp mah cs apps level locked]].
  pose proof (find_contact_some n cs) as Hfind.
  run_method.
  destruct locked.
  - split; [| split]; try reflexivity; try discriminate.
    split; [discriminate | intros [Hl _]; discriminate Hl].
  - destruct (find (fun c => String.eqb (lower (name c)) (lower n)) cs) as [c |].
    + destruct (Z.gtb_spec level 10) as [Hhigh | Hlow].
      * split; [| split]; try reflexivity; try discriminate.
        split; [| reflexivity]. intros _. repeat split; [| exact Hhigh].
        apply Hfind. exists c. reflexivity.
      * split; [| split]; try reflexivity; try discriminate.
        split; [discriminate | intros [_ [_ Hhigh]]; lia].
    + split; [| split]; try reflexivity; try discriminate.
      split; [discriminate |]. intros [_ [Hex _]].
      apply Hfind in Hex as [c Hc]. discriminate Hc.
Qed.

(** The first contact that matches is the one found. *)
Lemma find_contact_app (n : string) (cs : list contact) (c : contact) :
  lower (name c) = lower n ->
  (exists c', find (fun c => String.eqb (lower (name c)) (lower n)) (cs ++ [c]) = Some c') /\
  ((forall c', In c' cs -> lower (name c') <> lower n) ->
   find (fun c => String.eqb (lower (name c)) (lower n)) (cs ++ [c]) = Some c).
Proof.
  intros Heq. induction cs as [| c0 cs [IHex IHnew]]; cbn.
  - rewrite Heq, String.eqb_refl. split; [eexists; reflexivity | reflexivity].
  - destruct (String.eqb_spec (lower (name c0)) (lower n)) as [Hm | Hm].
    + split; [eexists; reflexivity |]. intros Hnone.
      exfalso. apply (Hnone c0); [left; reflexivity | exact Hm].
    + split; [exact IHex |]. intros Hnone. apply IHnew.
      intros c' Hin. apply Hnone. right. exact Hin.
Qed.

(** X15: on an unlocked smartphone with a battery level above 10, a contact
    just added can be called under any spelling of its name that differs only
    in letter case; and when no earlier contact has that name up to case, the
    call goes to the number just added. *)
Theorem added_contact_can_be_called
    (p : Smartphone.t) (name phone_number n : string) (w w' : World) :
  screen_locked p = false ->
  10 < battery_level p ->
  lower n = lower name ->
  result (make_call n (self_after (add_contact name phone_number p w)) w') = true /\
  ((forall c, In c (contacts p) -> lower (Smartphone.name c) <> lower name) ->
   globals_after (make_call n (self_after (add_contact name phone_number p w)) w')
     = echo ("📞 Calling " ++ name ++ " at " ++ phone_number ++ "...") w').
Proof.
  destruct p as [br mo pr wy sn md on pc [sys gb mp mah cs apps level locked]].
  intros Hunlocked Hlevel Hn.
  pose proof (find_contact_app n cs {| Smartphone.name := name; phone := phone_number |}
                (eq_sym Hn)) as [[c' Hsome] Hnew].
  run_method. subst locked.
  destruct (Z.gtb_spec level 10) as [_ | Hlow]; [| lia].
  split.
  - rewrite Hsome. reflexivity.
  - intros Hnone. rewrite Hnew; [reflexivity |].
    intros c Hin. rewrite Hn. apply Hnone. exact Hin.
Qed.

(** What one call does to the lists, to the lock, to the battery and to the
    attributes of the constructor. *)
Lemma identity_invoke_phone (c : phone_call) (p : Smartphone.t) (w : World) :
  phone_identity (fst (invoke_phone c p w)) = phone_identity p.
Proof.
  open_phone p. destruct c as [[] | | | | | | | | | | |]; run_method; cases; reflexivity.
Qed.

Lemma contacts_invoke_phone (c : phone_call) (p : Smartphone.t) (w : World) :
  contacts (fst (invoke_phone c p w)) = contacts p \/
  (screen_locked p = false /\
   exists n ph, contacts (fst (invoke_phone c p w))
                = (contacts p ++ [{| name := n; phone := ph |}])%list).
Proof.
  open_phone p. destruct c as [[] | | | | | | | | | | |]; run_method; cases;
    try (left; reflexivity).
  right. split; [reflexivity | do 2 eexists; reflexivity].
Qed.

Lemma apps_invoke_phone (c : phone_call) (p : Smartphone.t) (w : World) :
  apps_installed (fst (invoke_phone c p w)) = apps_installed p \/
  (screen_locked p = false /\
   exists a, contains a (apps_installed p) = false /\
             len (apps_installed p) < storage_gb (extra p) / 4 /\
             apps_installed (fst (invoke_phone c p w)) = (apps_installed p ++ [a])%list /\
             battery_level (fst (invoke_phone c p w)) = battery_level p - 2).
Proof.
  open_phone p. destruct c as [[] | | | | | | | | | | |]; run_method; branch;
    try (left; reflexivity).
  right. split; [reflexivity |]. eexists. repeat split; assumption.
Qed.

Lemma lock_invoke_phone (c : phone_call) (p : Smartphone.t) (w : World) :
  screen_locked p = true ->
  unlocks c = false ->
  screen_locked (fst (invoke_phone c p w)) = true /\
  contacts (fst (invoke_phone c p w)) = contacts p /\
  apps_installed (fst (invoke_phone c p w)) = apps_installed p /\
  (charges c = false -> battery_level (fst (invoke_phone c p w)) = battery_level p).
Proof.
  open_phone p. intros Hlocked Hc. cbn in Hlocked. subst.
  destruct c as [[] | | | | | | | | | | |]; run_method; cbn in Hc;
    try rewrite Hc; cases; repeat split; intros; reflexivity || discriminate.
Qed.

Lemma battery_invoke_phone (c : phone_call) (p : Smartphone.t) (w : World) :
  charges c = false ->
  battery_level (fst (invoke_phone c p w)) <= battery_level p.
Proof.
  open_phone p. intros Hc.
  destruct c as [[] | | | | | | | | | | |]; run_method; try discriminate Hc;
    cases; cbn; lia.
Qed.

Lemma contains_iff_In (x : string) (xs : list string) :
  contains x xs = true <-> In x xs.
Proof.
  unfold contains. rewrite existsb_exists. split.
  - intros [y [Hin Heq]]. apply String.eqb_eq in Heq. subst. exact Hin.
  - intros Hin. exists x. split; [exact Hin | apply String.eqb_refl].
Qed.

Lemma storage_invoke_phone (c : phone_call) (p : Smartphone.t) (w : World) :
  storage_gb (extra (fst (invoke_phone c p w))) = storage_gb (extra p).
Proof.
  pose proof (identity_invoke_phone c p w) as H. unfold phone_identity in H.
  injection H. intros. assumption.
Qed.

(** X16: after every script of calls on a constructed smartphone, no app is
    installed twice, and the number of installed apps is at most
    [storage_gb // 4], or 3 (the preinstalled ones) when that is less. *)
Theorem installed_apps_distinct_and_bounded
    (cs : list phone_call) (brand model : string) (price : Q) (os : string)
    (storage_gb camera_mp battery_mah warranty_years draw : Z) (today : string)
    (w : World) :
  NoDup (apps_installed
           (phone_after cs (Smartphone.__init__ brand model price os storage_gb
                              camera_mp battery_mah warranty_years draw today w))) /\
  len (apps_installed
         (phone_after cs (Smartphone.__init__ brand model price os storage_gb
                            camera_mp battery_mah warranty_years draw today w)))
    <= Z.max 3 (storage_gb / 4).
Proof.
  pose (good := fun p : Smartphone.t =>
          Smartphone.storage_gb (extra p) = storage_gb /\
          NoDup (apps_installed p) /\
          len (apps_installed p) <= Z.max 3 (storage_gb / 4)).
  assert (Hrun : good (phone_after cs (Smartphone.__init__ brand model price os
                         storage_gb camera_mp battery_mah warranty_years draw today w))).
  { unfold phone_after.
    apply (run_phone_keeps good (fun _ => true)).
    - intros c p w0 _ [Hgb [Hnodup Hlen]]. unfold good.
      rewrite storage_invoke_phone. split; [exact Hgb |].
      destruct (apps_invoke_phone c p w0) as [-> | [_ [a [Hnew [Hroom [-> _]]]]]].
      + split; assumption.
      + split.
        * apply NoDup_app; [exact Hnodup | repeat constructor; intros [] |].
          intros x Hx [<- | []].
          apply contains_iff_In in Hx. congruence.
        * unfold len in *. rewrite length_app, Nat2Z.inj_add. cbn [length].
          rewrite Hgb in Hroom. lia.
    - apply forallb_always.
    - unfold good. cbn. repeat split.
      + repeat constructor; cbn; intuition discriminate.
      + lia. }
  destruct Hrun as [_ [Hnodup Hlen]]. split; assumption.
Qed.

(** [a in apps + [a]]. *)
Lemma contains_last (a : string) (apps : list string) :
  contains a (apps ++ [a]) = true.
Proof.
  apply contains_iff_In. apply in_or_app. right. left. reflexivity.
Qed.

(** X17: [install_app] is idempotent: a second [install_app] of the same name
    right after the first returns [False] and leaves the object as the first
    call left it, whether the first call installed the app or refused. *)
Theorem install_app_twice (p : Smartphone.t) (a : string) (w w' : World) :
  result (install_app a (self_after (install_app a p w)) w') = false /\
  self_after (install_app a (self_after (install_app a p w)) w')
    = self_after (install_app a p w).
Proof.
  destruct p as [br mo pr wy sn md on pc [sys gb mp mah cs apps level locked]].
  pose proof (contains_last a apps) as Hlast.
  run_method. destruct locked; [split; reflexivity |].
  destruct (contains a apps) eqn:Hin.
  - rewrite Hin. split; reflexivity.
  - destruct (len apps <? gb / 4) eqn:Hroom.
    + rewrite Hlast. split; reflexivity.
    + rewrite Hin, Hroom. split; reflexivity.
Qed.

(** X18: no script of calls removes a contact or an app or reorders them: the
    lists after the script are the lists before it, with what was added at the
    end; and the attributes given to the constructor (brand, model, price,
    warranty, serial number, date, os, storage, camera, battery capacity) stay
    as they were. *)
Theorem contacts_and_apps_only_grow (cs : list phone_call) (p : Smartphone.t) (w : World) :
  (exists added, contacts (fst (run_phone cs p w)) = (contacts p ++ added)%list) /\
  (exists added, apps_installed (fst (run_phone cs p w))
                 = (apps_installed p ++ added)%list) /\
  phone_identity (fst (run_phone cs p w)) = phone_identity p.
Proof.
  pose (good := fun u : Smartphone.t =>
          (exists added, contacts u = (contacts p ++ added)%list) /\
          (exists added, apps_installed u = (apps_installed p ++ added)%list) /\
          phone_identity u = phone_identity p).
  apply (run_phone_keeps good (fun _ => true)).
  - intros c u w0 _ [[cs0 Hcs] [[as0 Has] Hid]]. unfold good.
    rewrite identity_invoke_phone. repeat split; [| | exact Hid].
    + destruct (contacts_invoke_phone c u w0) as [-> | [_ [n [ph ->]]]].
      * exists cs0. exact Hcs.
      * eexists. rewrite Hcs, <- app_assoc. reflexivity.
    + destruct (apps_invoke_phone c u w0) as [-> | [_ [a [_ [_ [-> _]]]]]].
      * exists as0. exact Has.
      * eexists. rewrite Has, <- app_assoc. reflexivity.
  - apply forallb_always.
  - unfold good. repeat split; exists []; rewrite app_nil_r; reflexivity.
Qed.

(** X19: on a locked smartphone, a script in which no [unlock_screen] call
    carries the passcode "1234" leaves the screen locked and the contacts and
    the installed apps as they were; and when the script has no
    [charge_battery] call either, the battery level is as it was. *)
Theorem locked_phone_stays_sealed (cs : list phone_call) (p : Smartphone.t) (w : World) :
  screen_locked p = true ->
  forallb (fun c => negb (unlocks c)) cs = true ->
  screen_locked (fst (run_phone cs p w)) = true /\
  contacts (fst (run_phone cs p w)) = contacts p /\
  apps_installed (fst (run_phone cs p w)) = apps_installed p /\
  (forallb (fun c => negb (charges c)) cs = true ->
   battery_level (fst (run_phone cs p w)) = battery_level p).
Proof.
  revert p w. induction cs as [| c cs IH]; intros p w Hlocked Hcs.
  - repeat split; try assumption.
  - cbn [forallb] in Hcs. apply andb_prop in Hcs as [Hc Hrest].
    apply negb_true_iff in Hc.
    destruct (lock_invoke_phone c p w Hlocked Hc) as [Hl [Hcon [Happ Hbat]]].
    cbn [run_phone].
    destruct (IH (fst (invoke_phone c p w)) (snd (invoke_phone c p w)) Hl Hrest)
      as [Hl' [Hcon' [Happ' Hbat']]].
    repeat split.
    + exact Hl'.
    + rewrite Hcon'. exact Hcon.
    + rewrite Happ'. exact Happ.
    + cbn [forallb]. intros Hch. apply andb_prop in Hch as [Hch Hchs].
      apply negb_true_iff in Hch. rewrite (Hbat' Hchs). apply Hbat. exact Hch.
Qed.

(** X20: only [charge_battery] raises the battery level: after a script
    without [charge_battery] calls the level is at most what it was. *)
Theorem battery_level_only_rises_by_charging
    (cs : list phone_call) (p : Smartphone.t) (w : World) :
  forallb (fun c => negb (charges c)) cs = true ->
  battery_level (fst (run_phone cs p w)) <= battery_level p.
Proof.
  intros Hcs.
  apply (run_phone_keeps (fun u => battery_level u <= battery_level p)
           (fun c => negb (charges c))); [| exact Hcs | lia].
  intros c u w0 Hc Hu. apply negb_true_iff in Hc.
  pose proof (battery_invoke_phone c u w0 Hc). lia.
Qed.

(** [xs.remove(x)] takes nothing but [x] away, and all of it when [xs] has no
    duplicates. *)
Lemma In_remove (x y : string) (xs : list string) :
  In y (remove x xs) -> In y xs.
Proof.
  induction xs as [| z xs IH]; cbn; [tauto |].
  destruct (String.eqb_spec z x); cbn; intuition.
Qed.

Lemma NoDup_remove (x : string) (xs : list string) :
  NoDup xs -> NoDup (remove x xs) /\ ~ In x (remove x xs).
Proof.
  induction 1 as [| z xs Hz Hxs [IHnodup IHgone]]; cbn.
  - split; [constructor | tauto].
  - destruct (String.eqb_spec z x) as [-> | Hne].
    + split; assumption.
    + split.
      * constructor; [| exact IHnodup]. intros Hin. apply Hz. apply (In_remove x). exact Hin.
      * intros [Heq | Hin]; [congruence | apply IHgone; exact Hin].
Qed.

Lemma remove_last (x : string) (xs : list string) :
  contains x xs = false -> remove x (xs ++ [x]) = xs.
Proof.
  induction xs as [| z xs IH]; cbn.
  - intros _. rewrite String.eqb_refl. reflexivity.
  - intros Hnot. apply orb_false_iff in Hnot as [Hz Hxs].
    rewrite String.eqb_sym, Hz. rewrite (IH Hxs). reflexivity.
Qed.

Lemma programs_invoke_laptop (c : laptop_call) (l : Laptop.t) (w : World) :
  NoDup (Laptop.programs_running l) ->
  NoDup (Laptop.programs_running (fst (invoke_laptop c l w))).
Proof.
  intros Hnodup. revert Hnodup. open_laptop l.
  destruct c as [[] | | |]; run_method; branch; intros Hnodup; try exact Hnodup.
  - apply NoDup_app; [exact Hnodup | repeat constructor; intros [] |].
    intros x Hx [<- | []]. apply contains_iff_In in Hx. congruence.
  - apply NoDup_remove. exact Hnodup.
Qed.

Lemma cpu_invoke_laptop (c : laptop_call) (l : Laptop.t) (w : World) :
  draw_in_range c ->
  0 <= Laptop.cpu_usage l ->
  0 <= Laptop.cpu_usage (fst (invoke_laptop c l w)).
Proof.
  open_laptop l.
  destruct c as [[] | | |]; run_method; cbn; intros Hdraw Hcpu; cases; cbn; lia.
Qed.

Lemma programs_run_laptop (cs : list laptop_call) :
  forall (l : Laptop.t) (w : World),
    NoDup (Laptop.programs_running l) ->
    NoDup (Laptop.programs_running (fst (run_laptop cs l w))).
Proof.
  induction cs as [| c cs IH]; intros l w Hl; [exact Hl |].
  cbn [run_laptop]. apply IH. apply programs_invoke_laptop. exact Hl.
Qed.

(** X21: after every script of calls on a constructed laptop no program is
    listed twice as running; and when the draws are what
    [random.randint(5, 15)] can return, the CPU usage is never negative. *)
Theorem laptop_programs_distinct_and_cpu_nonnegative
    (cs : list laptop_call) (brand model : string) (price : Q) (os : string)
    (ram_gb storage_gb : Z) (screen_size : string) (warranty_years draw : Z)
    (today : string) (w : World) :
  NoDup (Laptop.programs_running
           (laptop_after cs (Laptop.__init__ brand model price os ram_gb storage_gb
                               screen_size warranty_years draw today w))) /\
  (Forall draw_in_range cs ->
   0 <= Laptop.cpu_usage
          (laptop_after cs (Laptop.__init__ brand model price os ram_gb storage_gb
                              screen_size warranty_years draw today w))).
Proof.
  unfold laptop_after. split.
  - apply programs_run_laptop. constructor.
  - assert (Hrun : forall cs l w,
              Forall draw_in_range cs ->
              0 <= Laptop.cpu_usage l ->
              0 <= Laptop.cpu_usage (fst (run_laptop cs l w))).
    { clear. induction cs as [| c cs IH]; intros l w Hcs Hl; [exact Hl |].
      inversion Hcs as [| ? ? Hc Hrest]; subst.
      cbn [run_laptop]. apply IH; [exact Hrest |].
      apply cpu_invoke_laptop; assumption. }
    intros Hcs. apply Hrun; [exact Hcs | cbn; lia].
Qed.

(** X22: [close_program(x)] right after [run_program(x)] of a program that
    was not running gives the list of running programs back as it was, with a
    CPU usage of [max(0, old + first draw - second draw)]; and closing a
    program that is not running changes nothing of the laptop. *)
Theorem close_program_undoes_run_program
    (l : Laptop.t) (x : string) (d1 d2 : Z) (w w' : World) :
  contains x (Laptop.programs_running l) = false ->
  Laptop.programs_running
    (self_after (Laptop.close_program d2 x (self_after (Laptop.run_program d1 x l w)) w'))
    = Laptop.programs_running l /\
  Laptop.cpu_usage
    (self_after (Laptop.close_program d2 x (self_after (Laptop.run_program d1 x l w)) w'))
    = Z.max 0 (Laptop.cpu_usage l + d1 - d2) /\
  self_after (Laptop.close_program d2 x l w) = l.
Proof.
  destruct l as [br mo pr wy sn md on pc [sys ram gb size progs cpu]].
  intros Hnot. run_method.
  pose proof (contains_last x progs) as Hlast.
  pose proof (remove_last x progs Hnot) as Hremove.
  rewrite Hnot. cbn. rewrite Hlast, Hremove. repeat split.
Qed.

(** X23: on a laptop that a script of calls has reached, a program that
    [close_program] has closed is no longer running, and every program then
    running was running before. *)
Theorem closed_program_is_not_running
    (cs : list laptop_call) (brand model : string) (price : Q) (os : string)
    (ram_gb storage_gb : Z) (screen_size : string) (warranty_years draw : Z)
    (today : string) (w w' : World) (x : string) (d : Z) :
  let l := laptop_after cs (Laptop.__init__ brand model price os ram_gb storage_gb
                              screen_size warranty_years draw today w) in
  contains x (Laptop.programs_running (self_after (Laptop.close_program d x l w'))) = false /\
  (forall y, In y (Laptop.programs_running (self_after (Laptop.close_program d x l w'))) ->
             In y (Laptop.programs_running l)).
Proof.
  intros l.
  assert (Hnodup : NoDup (Laptop.programs_running l)).
  { apply programs_run_laptop. constructor. }
  clearbody l. revert Hnodup.
  destruct l as [br mo pr wy sn md on pc [sys ram gb size progs cpu]].
  run_method. intros Hnodup.
  destruct (contains x progs) eqn:Hin; cbn.
  - split.
    + destruct (contains x (remove x progs)) eqn:Hstill; [| reflexivity].
      apply contains_iff_In in Hstill. destruct (NoDup_remove x progs Hnodup) as [_ Hgone].
      contradiction.
    + intros y. apply In_remove.
  - split; [exact Hin | tauto].
Qed.

(** X24: the snapshot of a smartphone is the snapshot of the device followed
    by the eight smartphone entries, and that of a laptop the snapshot of the
    device followed by the six laptop entries: no entry of the base class is
    overridden, and no key occurs twice. *)
Theorem snapshots_extend_device_info (p : Smartphone.t) (l : Laptop.t) :
  get_smartphone_info p
    = (get_device_info p
       ++ [ ("os", Str (os (extra p)));
            ("storage_gb", Int (storage_gb (extra p)));
            ("camera_mp", Int (camera_mp (extra p)));
            ("battery_mah", Int (battery_mah (extra p)));
            ("battery_level", Int (battery_level p));
            ("screen_locked", Boolean (screen_locked p));
            ("contacts_count", Int (len (contacts p)));
            ("apps_installed", Int (len (apps_installed p))) ])%list /\
  Laptop.get_system_info l
    = (get_device_info l
       ++ [ ("os", Str (Laptop.os (extra l)));
            ("ram_gb", Int (Laptop.ram_gb (extra l)));
            ("storage_gb", Int (Laptop.storage_gb (extra l)));
            ("screen_size", Str (Laptop.screen_size (extra l)));
            ("cpu_usage", Int (Laptop.cpu_usage l));
            ("running_programs", Int (len (Laptop.programs_running l))) ])%list /\
  NoDup (keys (get_smartphone_info p)) /\
  NoDup (keys (Laptop.get_system_info l)).
Proof.
  repeat split.
  - unfold keys. cbn.
    repeat (constructor; [cbn; intuition discriminate |]). constructor.
  - unfold keys. cbn.
    repeat (constructor; [cbn; intuition discriminate |]). constructor.
Qed.

(** X25: a charge by an amount that is not negative never lowers a battery
    level that is within 100, and two such charges in a row leave the object as
    one charge by the sum does. *)
Theorem charge_battery_twice_is_charge_sum (p : Smartphone.t) (a b : Z) (w1 w2 w3 : World) :
  0 <= a ->
  0 <= b ->
  self_after (charge_battery b (self_after (charge_battery a p w1)) w2)
    = self_after (charge_battery (a + b) p w3) /\
  (battery_level p <= 100 ->
   battery_level p <= battery_level (self_after (charge_battery a p w1)) <= 100).
Proof.
  destruct p as [br mo pr wy sn md on pc [sys gb mp mah cs apps level locked]].
  intros Ha Hb. run_method. split.
  - do 2 f_equal. lia.
  - lia.
Qed.


End WithRuntime.

(** *** The model at concrete inputs *)

Lemma added_contact_can_be_called_witness :
  screen_locked (fst (unlocked (demo_phone boot))) = false /\
  10 < battery_level (fst (unlocked (demo_phone boot))) /\
  @lower ascii_runtime "ALICE smith" = @lower ascii_runtime "Alice Smith" /\
  result
    (@make_call ascii_runtime "ALICE smith"
       (self_after (add_contact "Alice Smith" "+254712345678"
                      (fst (unlocked (demo_phone boot))) (snd (unlocked (demo_phone boot)))))
       boot)
    = true.
Proof.
  assert (Hlevel : 10 < battery_level (fst (unlocked (demo_phone boot)))) by (cbn; lia).
  split; [reflexivity | split; [exact Hlevel | split; [reflexivity |]]].
  exact (proj1 (@added_contact_can_be_called ascii_runtime
                  (fst (unlocked (demo_phone boot))) "Alice Smith" "+254712345678"
                  "ALICE smith" (snd (unlocked (demo_phone boot))) boot
                  eq_refl Hlevel eq_refl)).
Defined.

Lemma locked_phone_stays_sealed_witness :
  screen_locked (fst (demo_phone boot)) = true /\
  screen_locked
    (fst (@run_phone ascii_runtime
            [UnlockScreen "0000"; AddContact "Mallory" "+1"; InstallApp "Spy";
             TakePhoto "20250101_120000"; UnlockScreen "4321"; Inherited PowerOn]
            (fst (demo_phone boot)) (snd (demo_phone boot))))
    = true /\
  contacts
    (fst (@run_phone ascii_runtime
            [UnlockScreen "0000"; AddContact "Mallory" "+1"; InstallApp "Spy";
             TakePhoto "20250101_120000"; UnlockScreen "4321"; Inherited PowerOn]
            (fst (demo_phone boot)) (snd (demo_phone boot))))
    = [].
Proof.
  split; [reflexivity |].
  destruct (@locked_phone_stays_sealed ascii_runtime
              [UnlockScreen "0000"; AddContact "Mallory" "+1"; InstallApp "Spy";
               TakePhoto "20250101_120000"; UnlockScreen "4321"; Inherited PowerOn]
              (fst (demo_phone boot)) (snd (demo_phone boot)) eq_refl eq_refl)
    as [Hlocked [Hcontacts _]].
  split; [exact Hlocked | exact Hcontacts].
Defined.

Lemma battery_level_only_rises_by_charging_witness :
  battery_level
    (fst (@run_phone ascii_runtime
            [UnlockScreen "1234"; InstallApp "WhatsApp"; TakePhoto "20250101_120000";
             AddContact "Alice Smith" "+254712345678"; MakeCall "alice smith"]
            (fst (demo_phone boot)) (snd (demo_phone boot))))
    <= battery_level (fst (demo_phone boot)).
Proof.
  exact (@battery_level_only_rises_by_charging ascii_runtime
           [UnlockScreen "1234"; InstallApp "WhatsApp"; TakePhoto "20250101_120000";
            AddContact "Alice Smith" "+254712345678"; MakeCall "alice smith"]
           (fst (demo_phone boot)) (snd (demo_phone boot)) eq_refl).
Defined.

Lemma laptop_programs_distinct_and_cpu_nonnegative_witness :
  0 <= Laptop.cpu_usage
         (@laptop_after ascii_runtime
            [RunProgram 5 "editor"; CloseProgram 15 "editor"; RunProgram 7 "browser";
             RunProgram 9 "browser"]
            (Laptop.__init__ "CompuTech" "PowerBook Pro" (129999 # 100) "Linux Ubuntu"
               16 512 "15.6 inches" 3 123456 "2025-01-01" boot)).
Proof.
  apply (@laptop_programs_distinct_and_cpu_nonnegative ascii_runtime).
  repeat constructor; cbn; lia.
Defined.

Lemma close_program_undoes_run_program_witness :
  Laptop.programs_running
    (self_after
       (Laptop.close_program 15 "editor"
          (self_after
             (Laptop.run_program 5 "editor"
                (fst (Laptop.__init__ "CompuTech" "PowerBook Pro" (129999 # 100)
                        "Linux Ubuntu" 16 512 "15.6 inches" 3 123456 "2025-01-01" boot))
                boot))
          boot))
    = [].
Proof.
  exact (proj1 (close_program_undoes_run_program
                  (fst (Laptop.__init__ "CompuTech" "PowerBook Pro" (129999 # 100)
                          "Linux Ubuntu" 16 512 "15.6 inches" 3 123456 "2025-01-01" boot))
                  "editor" 5 15 boot boot eq_refl)).
Defined.

Lemma make_call_succeeds_iff_witness :
  result (@make_call ascii_runtime "bob"
            (fst (unlocked (demo_phone boot))) (snd (unlocked (demo_phone boot))))
    = false /\
  self_after (@make_call ascii_runtime "bob"
                (fst (unlocked (demo_phone boot))) (snd (unlocked (demo_phone boot))))
    = fst (unlocked (demo_phone boot)).
Proof.
  split; [reflexivity |].
  exact (proj2 (proj2 (@make_call_succeeds_iff ascii_runtime
                         (fst (unlocked (demo_phone boot))) "bob"
                         (snd (unlocked (demo_phone boot))))) eq_refl).
Defined.

Lemma charge_battery_twice_is_charge_sum_witness :
  battery_level
    (self_after
       (charge_battery 30
          (self_after
             (charge_battery 20
                (self_after (take_photo "20250101_120000"
                               (fst (unlocked (demo_phone boot)))
                               (snd (unlocked (demo_phone boot)))))
                boot))
          boot))
    = 100.
Proof.
  assert (H20 : 0 <= 20) by lia.
  assert (H30 : 0 <= 30) by lia.
  rewrite (proj1 (charge_battery_twice_is_charge_sum
                    (self_after (take_photo "20250101_120000"
                                   (fst (unlocked (demo_phone boot)))
                                   (snd (unlocked (demo_phone boot)))))
                    20 30 boot boot boot H20 H30)).
  reflexivity.
Defined.


End DeviceScripts.
